(** * Ledger and inventory consistency of the commercial ERP

    A shallow embedding of the server-side code that the ledger, stock,
    costing, payment and totals properties are about:

    - [utils/calculations.js]   : [roundFinancial], [calculateTTC],
                                  [calculateHT], [calculateTaxAmount],
                                  [calculateDiscountAmount],
                                  [calculateMarginPercentage]
    - [services/calculService]  : [calculerTotauxDocument],
                                  [calculerSoldeRestant],
                                  [repartirPaiementSurFactures],
                                  [calculerNouveauCump]
    - [models/EcritureComptable]: the pre-save balance hook
    - [services/comptabiliteService] : [_creerEcriture],
                                  [comptabiliserFactureVente],
                                  [comptabiliserPaiementClient]
    - [models/Produit]          : [mettreAJourStock], the virtuals
                                  [prixVenteTTC] and [margeBrute]
    - [models/MouvementStock]   : the pre-save hook
    - [services/stockService]   : [_creerMouvement], [gererSortieVente],
                                  [gererEntreeAchat], [ajusterStockInventaire]
    - [models/Paiement]         : [updateDocumentSolde], the post-save and
                                  post-remove hooks
    - [models/Vente], [models/Facture] : the line virtuals and the
                                  pre-save hooks

    Numbers.  JavaScript numbers are IEEE doubles.  They are embedded as
    exact rationals ([Q]); [Math.round x] is [floor (x + 1/2)], which is
    its definition on the reals.  Equality of amounts is [Qeq] ([==]).
    Values that are not finite numbers (NaN, infinities, strings) are
    outside the embedding, except [undefined], which the code guards
    against with [typeof] and [|| 0].

    Persistence.  The database is a record of collections, passed from
    call to call.  An asynchronous function is the function from the
    database before the call to the database after it and the outcome,
    a value or the error thrown.  [save] is Mongoose's: the built-in
    validation of the document (a parameter of the development), the
    pre-save hooks of the schema, the write, the post-save hooks.  A
    transaction that is aborted gives back the database it started
    from; inside a call, a read sees the writes made before it. *)

From Stdlib Require Import QArith Qround Qabs Lqa ZArith Lia List String.
From stdpp Require Import gmap strings list fin_maps.

Local Open Scope Q_scope.

(* ===================================================================== *)
(** * JavaScript values met by the numeric code                           *)
(* ===================================================================== *)

(** A field read from a document is either a number or missing. *)
Inductive jsval : Type :=
  | JUndefined
  | JNumber (q : Q).

Coercion JNumber : Q >-> jsval.

(** [v || 0] : [undefined] and [0] are falsy, every other number is kept. *)
Definition or_zero (v : jsval) : Q :=
  match v with
  | JUndefined => 0
  | JNumber q => if Qeq_bool q 0 then 0 else q
  end.

(** [Math.round] : the integer nearest to [x], exact halves going up. *)
Definition Math_round (x : Q) : Z := Qfloor (x + (1 # 2)).


(* ===================================================================== *)
(** * utils/calculations.js                                               *)
(* ===================================================================== *)

Module Calculations.

Definition PRECISION : Q := 100.

(** [roundFinancial] : 0 for a non-number, else
    [Math.round(number * PRECISION) / PRECISION]. *)
Definition roundFinancial (number : jsval) : Q :=
  match number with
  | JUndefined => 0
  | JNumber x => inject_Z (Math_round (x * PRECISION)) / PRECISION
  end.




End Calculations.

Import Calculations.

(* ===================================================================== *)
(** * Documents                                                           *)
(* ===================================================================== *)

(** Identifiers (Mongo ObjectIds) and names are strings.  In a boolean
    test the empty string is falsy. *)
Definition falsy (s : string) : bool := String.eqb s "".

(** [a || b] on optional strings. *)
Definition ou (a b : option string) : option string :=
  match a with
  | Some s => if falsy s then b else a
  | None => b
  end.

Definition Qlt_bool (a b : Q) : bool := negb (Qle_bool b a).

Module Remise.
Record t := { type : option string; valeur : jsval }.
End Remise.

(** A line of a commercial document (quote, sale, invoice). *)
Module Ligne.
Record t := {
  quantite : jsval;
  prixUnitaireHT : jsval;
  tauxTVA : jsval;
  remise : option Remise.t }.
End Ligne.

Module Client.
Record t := { nom : string; compteComptableAssocie : option string }.
End Client.

Module Facture.
Record t := {
  _id : string;
  numero : string;
  dateEmission : string;
  client : Client.t;
  totalHT : jsval;
  totalTVA : jsval;
  totalTTC : jsval;
  montantPaye : jsval;
  comptabilise : bool;
  journalComptable : option string }.
End Facture.

Module Achat.
Record t := { _id : string; numero : string; totalTTC : jsval; montantPaye : jsval }.
End Achat.

(* ===================================================================== *)
(** * services/calculService.js                                           *)
(* ===================================================================== *)

Module CalculService.





Definition calculerSoldeRestant (totalTTC montantPaye : jsval) : Q :=
  let solde := or_zero totalTTC - or_zero montantPaye in
  roundFinancial solde.






End CalculService.

(* ===================================================================== *)
(** * Errors, results and the database                                    *)
(* ===================================================================== *)

(** The [Error]s thrown by the modelled code, one constructor per
    message, carrying the values the message interpolates. *)
Inductive Erreur : Type :=
  | EcritureNonEquilibree (totalDebit totalCredit : Q)
      (* L'écriture n'est pas équilibrée : Total Débit (..) doit être égal au Total Crédit (..). *)
  | EcritureTotalZero
      (* Une écriture comptable ne peut pas avoir un total de zéro. *)
  | FactureDejaComptabilisee (numero : string)
      (* La facture n°.. a déjà été comptabilisée. *)
  | JournalVentesNonConfigure
      (* Le journal des ventes par défaut n'est pas configuré dans les paramètres. *)
  | ComptesParDefautManquants
      (* Un ou plusieurs comptes comptables par défaut sont manquants ... *)
  | DonneesManquantes
      (* Données manquantes pour la création du mouvement de stock. *)
  | ProduitNonTrouve (produitId : string)
      (* Produit avec ID .. non trouvé. / Produit non trouvé *)
  | SortieDepotAbsent (depotId : string)
      (* Tentative de sortie de stock pour un produit non présent dans le dépôt .. *)
  | StockInsuffisant (designation : string)
      (* Stock insuffisant pour le produit .. dans le dépôt. *)
  | StockNegatif
      (* Le stock ne peut pas devenir négatif. *)
  | ValidationError (modele : string).
      (* raised by Mongoose when a document fails its schema validation *)

Inductive resultat (A : Type) : Type :=
  | Ok (a : A)
  | Echec (e : Erreur).

Arguments Ok {A} a.
Arguments Echec {A} e.

Definition est_echec {A : Type} (r : resultat A) : bool :=
  match r with Ok _ => false | Echec _ => true end.

Module MouvementComptable.
Record t := {
  compte : option string;
  libelle : string;
  debit : jsval;
  credit : jsval }.
End MouvementComptable.

Module DocumentOrigine.
Record t := { documentId : string; documentModel : string; documentNumero : string }.
End DocumentOrigine.

Module EcritureComptable.
(** The [data] object given to [new EcritureComptable(data)]. *)
Record data := {
  d_numeroPiece : string;
  d_dateEcriture : string;
  d_journal : option string;
  d_libelle : string;
  d_documentOrigine : DocumentOrigine.t;
  d_creePar : string;
  d_mouvements : list MouvementComptable.t }.

Record t := {
  _id : string;
  numeroPiece : string;
  dateEcriture : string;
  journal : option string;
  libelle : string;
  mouvements : list MouvementComptable.t;
  totalDebit : jsval;
  totalCredit : jsval;
  documentOrigine : DocumentOrigine.t;
  statut : string;
  creePar : string }.

(** [new EcritureComptable(data)] : [oid] is the fresh [_id] the driver
    gives the document; [statut] takes its schema default. *)
Definition new (oid : string) (d : data) : t :=
  {| _id := oid;
     numeroPiece := d_numeroPiece d;
     dateEcriture := d_dateEcriture d;
     journal := d_journal d;
     libelle := d_libelle d;
     mouvements := d_mouvements d;
     totalDebit := JUndefined;
     totalCredit := JUndefined;
     documentOrigine := d_documentOrigine d;
     statut := "Validée";
     creePar := d_creePar d |}.

Definition avec_totaux (this : t) (totalDebit totalCredit : Q) : t :=
  {| _id := _id this;
     numeroPiece := numeroPiece this;
     dateEcriture := dateEcriture this;
     journal := journal this;
     libelle := libelle this;
     mouvements := mouvements this;
     totalDebit := JNumber totalDebit;
     totalCredit := JNumber totalCredit;
     documentOrigine := documentOrigine this;
     statut := statut this;
     creePar := creePar this |}.

(** The [forEach] that accumulates both totals. *)
Definition cumuler (acc : Q * Q) (m : MouvementComptable.t) : Q * Q :=
  (fst acc + or_zero (MouvementComptable.debit m),
   snd acc + or_zero (MouvementComptable.credit m)).

(** [ecritureComptableSchema.pre('save')]. *)
Definition pre_save (this : t) : resultat t :=
  let '(totalDebit, totalCredit) := fold_left cumuler (mouvements this) (0, 0) in
  let totalDebit := inject_Z (Math_round (totalDebit * 100)) / 100 in
  let totalCredit := inject_Z (Math_round (totalCredit * 100)) / 100 in
  if negb (Qeq_bool totalDebit totalCredit) then
    Echec (EcritureNonEquilibree totalDebit totalCredit)
  else if Qeq_bool totalDebit 0 then
    Echec EcritureTotalZero
  else
    Ok (avec_totaux this totalDebit totalCredit).
End EcritureComptable.

Module Parametres.
Record t := {
  journalVentesParDefaut : option string;
  journalTresorerieParDefaut : option string;
  compteClientsDefaut : option string;
  compteVentesDefaut : option string;
  compteTVAVenteDefaut : option string;
  compteTresorerieDefaut : option string }.
End Parametres.

Module DepotStock.
Record t := { depot : string; quantite : Q }.
End DepotStock.

Module Produit.
Record t := {
  _id : string;
  designation : string;
  gestionStock : bool;
  prixAchat : Q;
  quantiteEnStock : Q;
  stockParDepot : list DepotStock.t }.

Definition avec_stock (this : t) (total : Q) (parDepot : list DepotStock.t) : t :=
  {| _id := _id this;
     designation := designation this;
     gestionStock := gestionStock this;
     prixAchat := prixAchat this;
     quantiteEnStock := total;
     stockParDepot := parDepot |}.
End Produit.

Module DocumentLie.
Record t := { id : string; type : string; numero : option string }.
End DocumentLie.

Module MouvementStock.
Record t := {
  _id : string;
  produit : string;
  depot : string;
  quantite : Q;
  typeMouvement : string;
  documentLie : DocumentLie.t;
  coutUnitaire : Q;
  valeurMouvement : Q;
  realisePar : string }.

Definition avec_valeur (this : t) (v : Q) : t :=
  {| _id := _id this;
     produit := produit this;
     depot := depot this;
     quantite := quantite this;
     typeMouvement := typeMouvement this;
     documentLie := documentLie this;
     coutUnitaire := coutUnitaire this;
     valeurMouvement := v;
     realisePar := realisePar this |}.
End MouvementStock.

Inductive StatutPaiement : Type := EnAttente | Valide | Annule | Echoue.

Inductive ModeleDocument : Type := ModeleFacture | ModeleAchat.

Module Paiement.
Record t := {
  _id : string;
  numeroPaiement : string;
  montant : Q;
  documentId : string;          (* documentConcerne.documentId *)
  documentModel : ModeleDocument; (* documentConcerne.documentModel *)
  statut : StatutPaiement }.
End Paiement.

#[global] Instance StatutPaiement_eq_dec : EqDecision StatutPaiement.
Proof. solve_decision. Defined.

(** The collections of the database. *)
Record Db := {
  parametres : option Parametres.t;
  ecritures : list EcritureComptable.t;
  factures : gmap string Facture.t;
  achats : gmap string Achat.t;
  produits : gmap string Produit.t;
  mouvementsStock : list MouvementStock.t;
  paiements : list Paiement.t }.

Definition set_ecritures (db : Db) (l : list EcritureComptable.t) : Db :=
  {| parametres := parametres db; ecritures := l; factures := factures db;
     achats := achats db; produits := produits db;
     mouvementsStock := mouvementsStock db; paiements := paiements db |}.

Definition set_factures (db : Db) (m : gmap string Facture.t) : Db :=
  {| parametres := parametres db; ecritures := ecritures db; factures := m;
     achats := achats db; produits := produits db;
     mouvementsStock := mouvementsStock db; paiements := paiements db |}.

Definition set_achats (db : Db) (m : gmap string Achat.t) : Db :=
  {| parametres := parametres db; ecritures := ecritures db; factures := factures db;
     achats := m; produits := produits db;
     mouvementsStock := mouvementsStock db; paiements := paiements db |}.

Definition set_produits (db : Db) (m : gmap string Produit.t) : Db :=
  {| parametres := parametres db; ecritures := ecritures db; factures := factures db;
     achats := achats db; produits := m;
     mouvementsStock := mouvementsStock db; paiements := paiements db |}.

Definition set_mouvementsStock (db : Db) (l : list MouvementStock.t) : Db :=
  {| parametres := parametres db; ecritures := ecritures db; factures := factures db;
     achats := achats db; produits := produits db;
     mouvementsStock := l; paiements := paiements db |}.

Definition set_paiements (db : Db) (l : list Paiement.t) : Db :=
  {| parametres := parametres db; ecritures := ecritures db; factures := factures db;
     achats := achats db; produits := produits db;
     mouvementsStock := mouvementsStock db; paiements := l |}.

(** Writing a document into a collection kept as a list: an existing
    document with the same [_id] is replaced, a new one is appended. *)
Fixpoint ecrire {A : Type} (cle : A -> string) (x : A) (l : list A) : list A :=
  match l with
  | [] => [x]
  | y :: l' => if String.eqb (cle y) (cle x) then x :: l' else y :: ecrire cle x l'
  end.

(** Mongoose's built-in validation of a document against its schema
    (required paths, [min], [enum], custom validators).  [save] runs it
    first and rejects with a [ValidationError]; the schema's own
    pre-save hooks run only on a document that passed.  It is library
    code: the development is parametric in it. *)
Record Validation := {
  valide_ecriture : EcritureComptable.t -> bool;
  valide_facture : Facture.t -> bool;
  valide_produit : Produit.t -> bool;
  valide_mouvement : MouvementStock.t -> bool;
  valide_paiement : Paiement.t -> bool }.


(* ===================================================================== *)
(** * services/comptabiliteService.js                                     *)
(* ===================================================================== *)

Module ComptabiliteService.
Section Avec_validation.

Variable V : Validation.

(** [ecriture.save({ session })] for a new document: validation, the
    pre-save hook, then the insertion. *)
Definition EcritureComptable_save (ecriture : EcritureComptable.t) (db : Db)
    : Db * resultat EcritureComptable.t :=
  if valide_ecriture V ecriture then
    match EcritureComptable.pre_save ecriture with
    | Echec e => (db, Echec e)
    | Ok ecriture =>
        (set_ecritures db (ecritures db ++ [ecriture]), Ok ecriture)
    end
  else (db, Echec (ValidationError "EcritureComptable")).

(** [_creerEcriture] : the save runs in a transaction, committed when it
    succeeds and aborted (the database is as before) when it throws. *)
Definition _creerEcriture (oid : string) (data : EcritureComptable.data) (db : Db)
    : Db * resultat EcritureComptable.t :=
  let ecriture := EcritureComptable.new oid data in
  match EcritureComptable_save ecriture db with
  | (db', Ok ecriture) => (db', Ok ecriture)
  | (_, Echec error) => (db, Echec error)
  end.




End Avec_validation.
End ComptabiliteService.

(* ===================================================================== *)
(** * models/Produit.js, models/MouvementStock.js,                        *)
(** * services/stockService.js                                            *)
(* ===================================================================== *)

Module Stock.

(** [produit.stockParDepot.find(d => d.depot.toString() === depotId.toString())]:
    the first record of the warehouse, with its position, so that the
    later update is made in place on that very record. *)
Definition trouver_depot (depotId : string) (l : list DepotStock.t)
    : option (nat * DepotStock.t) :=
  list_find (fun d => DepotStock.depot d = depotId) l.

(** [depotStock.quantite += quantite]. *)
Definition ajouter (quantite : Q) (d : DepotStock.t) : DepotStock.t :=
  {| DepotStock.depot := DepotStock.depot d;
     DepotStock.quantite := DepotStock.quantite d + quantite |}.

(** [depotStock.quantite < 0] read through the reference [depotStock]. *)
Definition depot_negatif (l : list DepotStock.t) (i : nat) : bool :=
  match l !! i with
  | Some d => Qlt_bool (DepotStock.quantite d) 0
  | None => false
  end.

(** The update [mettreAJourStock] makes on the loaded product, up to the
    call of [produit.save()]. *)
Definition mettreAJourStock_document
    (produit : Produit.t) (depotId : string) (quantite : Q) : resultat Produit.t :=
  let total := Produit.quantiteEnStock produit + quantite in
  match trouver_depot depotId (Produit.stockParDepot produit) with
  | Some (i, _) =>
      let parDepot := alter (ajouter quantite) i (Produit.stockParDepot produit) in
      if Qlt_bool total 0 || depot_negatif parDepot i then Echec StockNegatif
      else Ok (Produit.avec_stock produit total parDepot)
  | None =>
      let parDepot :=
        Produit.stockParDepot produit
          ++ [ {| DepotStock.depot := depotId; DepotStock.quantite := quantite |} ] in
      (* [depotStock] is undefined: only the total is tested *)
      if Qlt_bool total 0 || false then Echec StockNegatif
      else Ok (Produit.avec_stock produit total parDepot)
  end.

(** The update [_creerMouvement] makes on the loaded product, up to the
    call of [produit.save({ session })]. *)
Definition creerMouvement_document
    (produit : Produit.t) (depotId : string) (quantite : Q) : resultat Produit.t :=
  let total := Produit.quantiteEnStock produit + quantite in
  match trouver_depot depotId (Produit.stockParDepot produit) with
  | Some (i, _) =>
      let parDepot := alter (ajouter quantite) i (Produit.stockParDepot produit) in
      if Qlt_bool total 0 || depot_negatif parDepot i then
        Echec (StockInsuffisant (Produit.designation produit))
      else Ok (Produit.avec_stock produit total parDepot)
  | None =>
      if Qlt_bool 0 quantite then
        let parDepot :=
          Produit.stockParDepot produit
            ++ [ {| DepotStock.depot := depotId; DepotStock.quantite := quantite |} ] in
        (* [depotStock?.quantite] is undefined: only the total is tested *)
        if Qlt_bool total 0 || false then
          Echec (StockInsuffisant (Produit.designation produit))
        else Ok (Produit.avec_stock produit total parDepot)
      else Echec (SortieDepotAbsent depotId)
  end.

(** The source document a movement is created for. *)
Record DocumentSource := {
  source_id : string;
  source_modelName : string;
  source_numero : option string;
  source_numeroVente : option string;
  source_numeroAchat : option string }.

(** The argument object of [_creerMouvement]. *)
Record donnees := {
  produitId : string;
  depotId : string;
  quantite : Q;
  typeMouvement : string;
  documentLie : option DocumentSource;
  userId : string }.

Section Avec_validation.

Variable V : Validation.

(** [produit.save()] : validation, then the write. *)
Definition Produit_save (produit : Produit.t) (db : Db) : Db * resultat Produit.t :=
  if valide_produit V produit then
    (set_produits db (<[Produit._id produit := produit]> (produits db)), Ok produit)
  else (db, Echec (ValidationError "Produit")).

(** [produitSchema.statics.mettreAJourStock]. *)
Definition mettreAJourStock (produitId depotId : string) (quantite : Q) (db : Db)
    : Db * resultat Produit.t :=
  match produits db !! produitId with
  | None => (db, Echec (ProduitNonTrouve produitId))
  | Some produit =>
      match mettreAJourStock_document produit depotId quantite with
      | Echec e => (db, Echec e)
      | Ok produit => Produit_save produit db
      end
  end.

(** [mouvementStockSchema.pre('save')]. *)
Definition MouvementStock_pre_save (isNew : bool) (this : MouvementStock.t) (db : Db)
    : Db * resultat MouvementStock.t :=
  if isNew then
    let this :=
      MouvementStock.avec_valeur this
        (MouvementStock.quantite this * MouvementStock.coutUnitaire this) in
    match mettreAJourStock (MouvementStock.produit this) (MouvementStock.depot this)
            (MouvementStock.quantite this) db with
    | (db, Echec error) => (db, Echec error)
    | (db, Ok _) => (db, Ok this)
    end
  else (db, Ok this).

(** [mouvement.save()] : validation, the pre-save hook, then the write
    (an insertion for a new movement). *)
Definition MouvementStock_save (isNew : bool) (mouvement : MouvementStock.t) (db : Db)
    : Db * resultat MouvementStock.t :=
  if valide_mouvement V mouvement then
    match MouvementStock_pre_save isNew mouvement db with
    | (db, Echec e) => (db, Echec e)
    | (db, Ok mouvement) =>
        let collection :=
          if isNew then mouvementsStock db ++ [mouvement]
          else ecrire MouvementStock._id mouvement (mouvementsStock db) in
        (set_mouvementsStock db collection, Ok mouvement)
    end
  else (db, Echec (ValidationError "MouvementStock")).

(** The [try] block of [_creerMouvement]: the update of the product and
    its save, then the creation of the movement and its save, whose
    pre-save hook calls [mettreAJourStock] on the product as saved. *)
Definition essai_creerMouvement (oid : string) (d : donnees) (source : DocumentSource)
    (db : Db) : Db * resultat (option MouvementStock.t) :=
  match produits db !! produitId d with
  | None => (db, Echec (ProduitNonTrouve (produitId d)))
  | Some produit =>
      if negb (Produit.gestionStock produit) then (db, Ok None)
      else
        match creerMouvement_document produit (depotId d) (quantite d) with
        | Echec e => (db, Echec e)
        | Ok produit =>
            match Produit_save produit db with
            | (db, Echec e) => (db, Echec e)
            | (db, Ok _) =>
                let mouvement :=
                  {| MouvementStock._id := oid;
                     MouvementStock.produit := produitId d;
                     MouvementStock.depot := depotId d;
                     MouvementStock.quantite := quantite d;
                     MouvementStock.typeMouvement := typeMouvement d;
                     MouvementStock.documentLie :=
                       {| DocumentLie.id := source_id source;
                          DocumentLie.type := source_modelName source;
                          DocumentLie.numero :=
                            ou (ou (source_numero source) (source_numeroVente source))
                               (source_numeroAchat source) |};
                     MouvementStock.coutUnitaire := Produit.prixAchat produit;
                     MouvementStock.valeurMouvement :=
                       quantite d * Produit.prixAchat produit;
                     MouvementStock.realisePar := userId d |} in
                match MouvementStock_save true mouvement db with
                | (db, Echec e) => (db, Echec e)
                | (db, Ok mouvementCree) => (db, Ok (Some mouvementCree))
                end
            end
        end
  end.

(** [StockService._creerMouvement] : the argument check ([documentLie]
    is [None] when the caller gave none, a number is falsy when it is 0),
    then the [try] block in a transaction; a thrown error aborts it and
    the database is as before the call. *)
Definition _creerMouvement (oid : string) (d : donnees) (db : Db)
    : Db * resultat (option MouvementStock.t) :=
  match documentLie d with
  | Some source =>
      if falsy (produitId d) || falsy (depotId d) || Qeq_bool (quantite d) 0
         || falsy (typeMouvement d) || falsy (userId d)
      then (db, Echec DonneesManquantes)
      else
        match essai_creerMouvement oid d source db with
        | (db', Ok r) => (db', Ok r)
        | (_, Echec error) => (db, Echec error)
        end
  | None => (db, Echec DonneesManquantes)
  end.

End Avec_validation.
End Stock.

(* ===================================================================== *)
(** * models/Paiement.js                                                  *)
(* ===================================================================== *)

Module PaiementModel.

Definition avec_montantPaye_facture (totalPaye : Q) (f : Facture.t) : Facture.t :=
  {| Facture._id := Facture._id f;
     Facture.numero := Facture.numero f;
     Facture.dateEmission := Facture.dateEmission f;
     Facture.client := Facture.client f;
     Facture.totalHT := Facture.totalHT f;
     Facture.totalTVA := Facture.totalTVA f;
     Facture.totalTTC := Facture.totalTTC f;
     Facture.montantPaye := JNumber totalPaye;
     Facture.comptabilise := Facture.comptabilise f;
     Facture.journalComptable := Facture.journalComptable f |}.

Definition avec_montantPaye_achat (totalPaye : Q) (a : Achat.t) : Achat.t :=
  {| Achat._id := Achat._id a;
     Achat.numero := Achat.numero a;
     Achat.totalTTC := Achat.totalTTC a;
     Achat.montantPaye := JNumber totalPaye |}.

(** [model.findByIdAndUpdate(documentId, { montantPaye: totalPaye })]:
    an update in place of the document with that [_id], nothing when
    there is none. *)
Definition findByIdAndUpdate (model : ModeleDocument) (documentId : string)
    (totalPaye : Q) (db : Db) : Db :=
  match model with
  | ModeleFacture =>
      set_factures db (alter (avec_montantPaye_facture totalPaye) documentId (factures db))
  | ModeleAchat =>
      set_achats db (alter (avec_montantPaye_achat totalPaye) documentId (achats db))
  end.

(** The query [find({ 'documentConcerne.documentId': documentId, statut: 'Validé' })]. *)
Definition paiements_valides (documentId : string) (l : list Paiement.t) : list Paiement.t :=
  filter (fun p => Paiement.documentId p = documentId /\ Paiement.statut p = Valide) l.

(** [updateDocumentSolde]. *)
Definition updateDocumentSolde (doc : option Paiement.t) (db : Db) : Db :=
  match doc with
  | None => db
  | Some doc =>
      if negb (bool_decide (Paiement.statut doc = Valide)) then db
      else
        let model := Paiement.documentModel doc in
        let documentId := Paiement.documentId doc in
        let paiements := paiements_valides documentId (paiements db) in
        let totalPaye := fold_left (fun acc p => acc + Paiement.montant p) paiements 0 in
        findByIdAndUpdate model documentId totalPaye db
  end.

(** [paiement.save()] : validation, the write, then the post-save hook. *)
Definition Paiement_save (V : Validation) (paiement : Paiement.t) (db : Db)
    : Db * resultat Paiement.t :=
  if valide_paiement V paiement then
    let db := set_paiements db (ecrire Paiement._id paiement (paiements db)) in
    (updateDocumentSolde (Some paiement) db, Ok paiement)
  else (db, Echec (ValidationError "Paiement")).

End PaiementModel.

(* ===================================================================== *)
(** * Validation instances                                                *)
(* ===================================================================== *)

(** No constraint at all. *)
Definition validation_permissive : Validation :=
  {| valide_ecriture := fun _ => true;
     valide_facture := fun _ => true;
     valide_produit := fun _ => true;
     valide_mouvement := fun _ => true;
     valide_paiement := fun _ => true |}.

(** The constraints on values that the schemas declare for the embedded
    fields: an entry has at least two lines; a product's
    [quantiteEnStock] and every [stockParDepot.quantite] have [min: 0];
    a movement's [quantite] is not zero; a payment's [montant] has
    [min: 0.01].  (Required paths are not part of it.) *)
Definition validation_schemas : Validation :=
  {| valide_ecriture := fun e => (2 <=? length (EcritureComptable.mouvements e))%nat;
     valide_facture := fun _ => true;
     valide_produit := fun p =>
       Qle_bool 0 (Produit.quantiteEnStock p)
       && forallb (fun d => Qle_bool 0 (DepotStock.quantite d)) (Produit.stockParDepot p);
     valide_mouvement := fun m => negb (Qeq_bool (MouvementStock.quantite m) 0);
     valide_paiement := fun p => Qle_bool (1 # 100) (Paiement.montant p) |}.

(* ===================================================================== *)
(** * The properties, in the words of the specification                   *)
(* ===================================================================== *)


(** Sum of a quantity over a list. *)
Definition somme {A : Type} (f : A -> Q) (l : list A) : Q :=
  fold_right (fun a s => f a + s) 0 l.

Module Spec.
















(** Stock: the total is the sum of the warehouses, nothing is negative. *)
Definition total_coherent (p : Produit.t) : Prop :=
  Produit.quantiteEnStock p == somme DepotStock.quantite (Produit.stockParDepot p).

Definition non_negatif (p : Produit.t) : Prop :=
  0 <= Produit.quantiteEnStock p
  /\ Forall (fun d => 0 <= DepotStock.quantite d) (Produit.stockParDepot p).

Definition invariant_produit (p : Produit.t) : Prop :=
  total_coherent p /\ non_negatif p.

Definition invariant_stock (db : Db) : Prop :=
  map_Forall (fun _ p => invariant_produit p) (produits db).

End Spec.

(* ===================================================================== *)
(** * Reading the database, running operations                            *)
(* ===================================================================== *)

(** The quantity a product holds in a warehouse: that of its record
    there, 0 when it has none. *)
Definition quantite_depot (depotId : string) (produit : Produit.t) : Q :=
  match Stock.trouver_depot depotId (Produit.stockParDepot produit) with
  | Some (_, d) => DepotStock.quantite d
  | None => 0
  end.

(** [montantPaye] of the document [documentId] of the collection [model]. *)
Definition montantPaye_document (model : ModeleDocument) (documentId : string) (db : Db)
    : option jsval :=
  match model with
  | ModeleFacture => Facture.montantPaye <$> factures db !! documentId
  | ModeleAchat => Achat.montantPaye <$> achats db !! documentId
  end.





(* ===================================================================== *)
(** * Example data                                                        *)
(* ===================================================================== *)




(** An invoice of 100 ex-tax and 18 of tax, with no payment yet. *)
Definition facture_exemple : Facture.t :=
  {| Facture._id := "F1";
     Facture.numero := "FAC-001";
     Facture.dateEmission := "2024-01-01";
     Facture.client := {| Client.nom := "Client"; Client.compteComptableAssocie := None |};
     Facture.totalHT := 100;
     Facture.totalTVA := 18;
     Facture.totalTTC := 118;
     Facture.montantPaye := 0;
     Facture.comptabilise := false;
     Facture.journalComptable := None |}.

Definition parametres_exemple : Parametres.t :=
  {| Parametres.journalVentesParDefaut := Some "JV"%string;
     Parametres.journalTresorerieParDefaut := Some "JT"%string;
     Parametres.compteClientsDefaut := Some "411000"%string;
     Parametres.compteVentesDefaut := Some "701000"%string;
     Parametres.compteTVAVenteDefaut := Some "443000"%string;
     Parametres.compteTresorerieDefaut := Some "521000"%string |}.

Definition db_vide : Db :=
  {| parametres := None; ecritures := []; factures := ∅; achats := ∅;
     produits := ∅; mouvementsStock := []; paiements := [] |}.

(** A configured database holding the example invoice. *)
Definition db_comptable : Db :=
  {| parametres := Some parametres_exemple; ecritures := [];
     factures := {[ "F1"%string := facture_exemple ]}; achats := ∅;
     produits := ∅; mouvementsStock := []; paiements := [] |}.




(** A product holding 10 units, all in warehouse A. *)
Definition produit_exemple : Produit.t :=
  {| Produit._id := "P";
     Produit.designation := "Produit P";
     Produit.gestionStock := true;
     Produit.prixAchat := 5;
     Produit.quantiteEnStock := 10;
     Produit.stockParDepot := [ {| DepotStock.depot := "A"; DepotStock.quantite := 10 |} ] |}.

Definition db_exemple : Db := set_produits db_vide {[ "P"%string := produit_exemple ]}.

Definition bon_exemple : Stock.DocumentSource :=
  {| Stock.source_id := "BL1";
     Stock.source_modelName := "Vente";
     Stock.source_numero := Some "BL-2024-001"%string;
     Stock.source_numeroVente := None;
     Stock.source_numeroAchat := None |}.

(** A movement of [q] units of the example product on warehouse [depot]. *)
Definition mouvement_exemple (depot : string) (q : Q) : Stock.donnees :=
  {| Stock.produitId := "P";
     Stock.depotId := depot;
     Stock.quantite := q;
     Stock.typeMouvement := "SORTIE_VENTE";
     Stock.documentLie := Some bon_exemple;
     Stock.userId := "U1" |}.

(** The example product after [mettreAJourStock] took 3 units out of
    warehouse B, where it had no record. *)
Definition produit_exemple_negatif : Produit.t :=
  {| Produit._id := "P";
     Produit.designation := "Produit P";
     Produit.gestionStock := true;
     Produit.prixAchat := 5;
     Produit.quantiteEnStock := 10 + -3;
     Produit.stockParDepot :=
       [ {| DepotStock.depot := "A"; DepotStock.quantite := 10 |};
         {| DepotStock.depot := "B"; DepotStock.quantite := -3 |} ] |}.

(** A new outbound movement of 3 units on warehouse B. *)
Definition sortie_depot_B : MouvementStock.t :=
  {| MouvementStock._id := "M1";
     MouvementStock.produit := "P";
     MouvementStock.depot := "B";
     MouvementStock.quantite := -3;
     MouvementStock.typeMouvement := "SORTIE_VENTE";
     MouvementStock.documentLie :=
       {| DocumentLie.id := "BL1"; DocumentLie.type := "Vente";
          DocumentLie.numero := Some "BL-2024-001"%string |};
     MouvementStock.coutUnitaire := 5;
     MouvementStock.valeurMouvement := 0;
     MouvementStock.realisePar := "U1" |}.

(** A payment on the example invoice. *)
Definition paiement_exemple (id : string) (montant : Q) (statut : StatutPaiement)
    : Paiement.t :=
  {| Paiement._id := id;
     Paiement.numeroPaiement := id;
     Paiement.montant := montant;
     Paiement.documentId := "F1";
     Paiement.documentModel := ModeleFacture;
     Paiement.statut := statut |}.

(* ===================================================================== *)
(** * utils/calculations.js, the other functions                          *)
(* ===================================================================== *)

Module CalculationsSuite.


(** A number that may be [Infinity]. *)
Inductive nombre : Type :=
  | Infinity
  | Fini (q : Q).

Definition calculateMarginPercentage (salePrice costPrice : Q) : nombre :=
  if Qeq_bool costPrice 0 then Infinity
  else
    let margin := ((salePrice - costPrice) / costPrice) * 100 in
    Fini (roundFinancial margin).

End CalculationsSuite.

(* ===================================================================== *)
(** * models/Produit.js, the price virtuals                               *)
(* ===================================================================== *)

Module ProduitPrix.

(** The price fields of a product. *)
Record t := { prixAchat : jsval; prixVenteHT : jsval; tauxTVA : jsval }.

(** [!x] on a number field: missing or 0. *)
Definition nul (v : jsval) : bool :=
  match v with
  | JUndefined => true
  | JNumber q => Qeq_bool q 0
  end.


(** The virtual [margeBrute]. *)
Definition margeBrute (this : t) : Q :=
  match prixVenteHT this, prixAchat this with
  | JNumber p, JNumber c =>
      if nul (prixVenteHT this) || nul (prixAchat this) || Qeq_bool c 0 then 0
      else ((p - c) / c) * 100
  | _, _ => 0
  end.

End ProduitPrix.

(* ===================================================================== *)
(** * models/Vente.js : line virtuals and the pre-save hook               *)
(* ===================================================================== *)

Module LigneVente.

(** A stored line: every number is present, the discount has its type. *)
Record t := {
  quantite : Q;
  prixUnitaireHT : Q;
  tauxTVA : Q;
  remise_type : string;
  remise_valeur : Q }.

Definition totalLigneHT (this : t) : Q := quantite this * prixUnitaireHT this.

Definition montantRemise (this : t) : Q :=
  if String.eqb (remise_type this) "Pourcentage"
  then totalLigneHT this * (remise_valeur this / 100)
  else remise_valeur this.

Definition totalLigneApresRemiseHT (this : t) : Q := totalLigneHT this - montantRemise this.

Definition montantTVA (this : t) : Q := totalLigneApresRemiseHT this * (tauxTVA this / 100).

Definition totalLigneTTC (this : t) : Q := totalLigneApresRemiseHT this + montantTVA this.


End LigneVente.

Inductive StatutPaiementDocument : Type := NonPaye | PartiellementPaye | Paye.

Module Vente.

Record t := {
  lignes : list LigneVente.t;
  totalHT : Q;
  totalRemise : Q;
  totalTVA : Q;
  totalTTC : Q;
  statutPaiement : StatutPaiementDocument;
  montantPaye : Q }.

(** The [forEach] of the hook: the three running totals. *)
Definition cumuler (acc : Q * Q * Q) (ligne : LigneVente.t) : Q * Q * Q :=
  let '(totalHT, totalRemise, totalTVA) := acc in
  (totalHT + LigneVente.totalLigneHT ligne,
   totalRemise + LigneVente.montantRemise ligne,
   totalTVA + LigneVente.montantTVA ligne).

(** [venteSchema.pre('save')]. *)
Definition pre_save (this : t) : t :=
  let '(totalHT, totalRemise, totalTVA) := fold_left cumuler (lignes this) (0, 0, 0) in
  let totalTTC := totalHT - totalRemise + totalTVA in
  let statutPaiement :=
    if Qle_bool totalTTC (montantPaye this) then Paye
    else if Qlt_bool 0 (montantPaye this) && Qlt_bool (montantPaye this) totalTTC
         then PartiellementPaye
         else NonPaye in
  {| lignes := lignes this;
     totalHT := totalHT;
     totalRemise := totalRemise;
     totalTVA := totalTVA;
     totalTTC := totalTTC;
     statutPaiement := statutPaiement;
     montantPaye := montantPaye this |}.

End Vente.

(* ===================================================================== *)
(** * models/Paiement.js : the post-remove hook                           *)
(* ===================================================================== *)

Module PaiementRemove.

(** [paiement.remove()] : the document is deleted from the collection,
    then the post-remove hook recomputes the balance of its document. *)
Definition Paiement_remove (paiement : Paiement.t) (db : Db) : Db :=
  let db :=
    set_paiements db
      (filter (fun p => Paiement._id p <> Paiement._id paiement) (paiements db)) in
  PaiementModel.updateDocumentSolde (Some paiement) db.

End PaiementRemove.

(* ===================================================================== *)
(** * services/comptabiliteService.js : comptabiliserPaiementClient       *)
(* ===================================================================== *)

Module ComptabilitePaiement.




End ComptabilitePaiement.

(* ===================================================================== *)
(** * services/stockService.js : the public operations                    *)
(* ===================================================================== *)

Module StockOperations.

(** A line of a delivery or reception note: the product and the quantity
    delivered ([quantiteLivree]) or received ([quantiteRecue]). *)
Record LigneBon := { ligne_produit : string; ligne_quantite : Q }.

(** A delivery or reception note: the document itself and its lines. *)
Record Bon := { bon_document : Stock.DocumentSource; bon_lignes : list LigneBon }.

(** The errors of [ajusterStockInventaire]: its own, and those of
    [_creerMouvement]. *)
Inductive ErreurInventaire : Type :=
  | ProduitInventaireNonTrouve
      (* Produit non trouvé. *)
  | ErreurMouvement (e : Erreur).

Section Avec_validation.

Variable V : Validation.

(** The identifiers the driver gives the movements, in creation order. *)
Variable oid : nat -> string.

(** The loop [for (const ligne of bon.lignes) await this._creerMouvement(...)]:
    [donnees] builds the argument of the call for a line; a call that
    throws ends the loop with its error, what the calls before it wrote
    stays written. *)
Fixpoint boucle_lignes (donnees : LigneBon -> Stock.donnees) (i : nat)
    (lignes : list LigneBon) (db : Db) : Db * resultat unit :=
  match lignes with
  | [] => (db, Ok tt)
  | ligne :: suite =>
      match Stock._creerMouvement V (oid i) (donnees ligne) db with
      | (db, Ok _) => boucle_lignes donnees (S i) suite db
      | (db, Echec e) => (db, Echec e)
      end
  end.

Definition donnees_sortie (bonLivraison : Bon) (depotId userId : string)
    (ligne : LigneBon) : Stock.donnees :=
  {| Stock.produitId := ligne_produit ligne;
     Stock.depotId := depotId;
     Stock.quantite := - ligne_quantite ligne;
     Stock.typeMouvement := "SORTIE_VENTE";
     Stock.documentLie := Some (bon_document bonLivraison);
     Stock.userId := userId |}.

Definition donnees_entree (bonReception : Bon) (depotId userId : string)
    (ligne : LigneBon) : Stock.donnees :=
  {| Stock.produitId := ligne_produit ligne;
     Stock.depotId := depotId;
     Stock.quantite := ligne_quantite ligne;
     Stock.typeMouvement := "ENTREE_ACHAT";
     Stock.documentLie := Some (bon_document bonReception);
     Stock.userId := userId |}.

(** [gererSortieVente]. *)
Definition gererSortieVente (bonLivraison : Bon) (depotId userId : string) (db : Db)
    : Db * resultat unit :=
  boucle_lignes (donnees_sortie bonLivraison depotId userId) 0
    (bon_lignes bonLivraison) db.

(** [gererEntreeAchat]. *)
Definition gererEntreeAchat (bonReception : Bon) (depotId userId : string) (db : Db)
    : Db * resultat unit :=
  boucle_lignes (donnees_entree bonReception depotId userId) 0
    (bon_lignes bonReception) db.

(** [ajusterStockInventaire]. *)
Definition ajusterStockInventaire (produitId depotId : string) (quantiteReelle : Q)
    (inventaireDoc : option Stock.DocumentSource) (userId : string) (db : Db)
    : Db * (ErreurInventaire + unit) :=
  match produits db !! produitId with
  | None => (db, inl ProduitInventaireNonTrouve)
  | Some produit =>
      let quantiteTheorique :=
        match Stock.trouver_depot depotId (Produit.stockParDepot produit) with
        | Some (_, depotStock) => DepotStock.quantite depotStock
        | None => 0
        end in
      let quantiteAjustement := quantiteReelle - quantiteTheorique in
      if negb (Qeq_bool quantiteAjustement 0) then
        match Stock._creerMouvement V (oid 0%nat)
                {| Stock.produitId := produitId;
                   Stock.depotId := depotId;
                   Stock.quantite := quantiteAjustement;
                   Stock.typeMouvement := "AJUSTEMENT_INV";
                   Stock.documentLie := inventaireDoc;
                   Stock.userId := userId |} db with
        | (db, Ok _) => (db, inr tt)
        | (db, Echec e) => (db, inl (ErreurMouvement e))
        end
      else (db, inr tt)
  end.

End Avec_validation.
End StockOperations.

(* ===================================================================== *)
(** * Allocations and invoices                                            *)
(* ===================================================================== *)

(** The balance of an invoice, as the allocation loop computes it. *)
Definition solde (f : Facture.t) : Q :=
  CalculService.calculerSoldeRestant (Facture.totalTTC f) (Facture.montantPaye f).


(* ===================================================================== *)
(** * models/Facture.js : line virtuals and the pre-save hook             *)
(* ===================================================================== *)

(** [ligneFactureSchema] declares the virtuals of [ligneVenteSchema]
    again, with the same bodies. *)
Module LigneFacture := LigneVente.

Module FactureDocument.

Inductive Statut : Type :=
  | Brouillon | Envoyee | PartiellementPayee | Payee | EnRetard | Annulee.

#[global] Instance Statut_eq_dec : EqDecision Statut.
Proof. solve_decision. Defined.

(** The fields of an invoice that its pre-save hook reads and writes. *)
Record t := {
  lignes : list LigneFacture.t;
  totalHT : Q;
  totalRemise : Q;
  totalTVA : Q;
  totalTTC : Q;
  montantPaye : Q;
  statut : Statut }.

(** The [forEach] of the hook: the three running totals. *)
Definition cumuler (acc : Q * Q * Q) (ligne : LigneFacture.t) : Q * Q * Q :=
  let '(totalHT, totalRemise, totalTVA) := acc in
  (totalHT + LigneFacture.totalLigneHT ligne,
   totalRemise + LigneFacture.montantRemise ligne,
   totalTVA + LigneFacture.montantTVA ligne).

(** [factureSchema.pre('save')].  [echue] is the test
    [this.dateEcheance && this.dateEcheance < new Date()]. *)
Definition pre_save (echue : bool) (this : t) : t :=
  let '(totalHT, totalRemise, totalTVA) := fold_left cumuler (lignes this) (0, 0, 0) in
  let totalTTC := totalHT - totalRemise + totalTVA in
  let statut :=
    if bool_decide (statut this <> Annulee) then
      if Qle_bool totalTTC (montantPaye this) then Payee
      else if Qlt_bool 0 (montantPaye this) && Qlt_bool (montantPaye this) totalTTC
           then PartiellementPayee
      else if echue then EnRetard
      else if bool_decide (statut this = Brouillon) then statut this
      else Envoyee
    else statut this in
  {| lignes := lignes this;
     totalHT := totalHT;
     totalRemise := totalRemise;
     totalTVA := totalTVA;
     totalTTC := totalTTC;
     montantPaye := montantPaye this;
     statut := statut |}.

End FactureDocument.

(* ===================================================================== *)
(** * Example data for the operations above                               *)
(* ===================================================================== *)

(** The identifiers of the movements of a note: M0, M1, ... *)
Definition oid_exemple (n : nat) : string :=
  String.append "M" (String (Ascii.ascii_of_nat (48 + n)) EmptyString).

(** A delivery note of two lines of the example product: 2 units, then
    20 units. *)
Definition bon_livraison_exemple : StockOperations.Bon :=
  {| StockOperations.bon_document := bon_exemple;
     StockOperations.bon_lignes :=
       [ {| StockOperations.ligne_produit := "P"; StockOperations.ligne_quantite := 2 |};
         {| StockOperations.ligne_produit := "P"; StockOperations.ligne_quantite := 20 |} ] |}.




(* ===================================================================== *)
(** * Rounding: the arithmetic facts used throughout                      *)
(* ===================================================================== *)




Lemma Math_round_comp (x y : Q) : x == y -> Math_round x = Math_round y.
Proof. intros H. unfold Math_round. apply Qfloor_comp. rewrite H. reflexivity. Qed.

Lemma roundFinancial_number (x : Q) :
  roundFinancial x = inject_Z (Math_round (x * 100)) / 100.
Proof. reflexivity. Qed.

Lemma roundFinancial_comp (x y : Q) :
  x == y -> roundFinancial x == roundFinancial y.
Proof.
  intros H. rewrite !roundFinancial_number.
  rewrite (Math_round_comp (x * 100) (y * 100)).
  - reflexivity.
  - rewrite H. reflexivity.
Qed.








(* ===================================================================== *)
(** * Rounding half up and rounding half away from zero                   *)
(* ===================================================================== *)







(* ===================================================================== *)
(** * C5 - weighted-average unit cost                                     *)
(* ===================================================================== *)







(* ===================================================================== *)
(** * C6 - document totals                                                *)
(* ===================================================================== *)

Section Totaux.

Import CalculService.

Lemma somme_cons {A : Type} (f : A -> Q) (a : A) (l : list A) :
  somme f (a :: l) = f a + somme f l.
Proof. reflexivity. Qed.










End Totaux.

(* ===================================================================== *)
(** * C4 - allocation of a payment over open documents                    *)
(* ===================================================================== *)

Section Repartition.

Import CalculService.


Lemma Qle_bool_false (a b : Q) : Qle_bool a b = false -> b < a.
Proof.
  intros E. apply Qnot_le_lt. intros H. apply Qle_bool_iff in H. congruence.
Qed.








End Repartition.




(* ===================================================================== *)
(** * Ledger: the pre-save hook and the posting                           *)
(* ===================================================================== *)

Section Ledger.

Variable V : Validation.

Import ComptabiliteService.







End Ledger.

(* ===================================================================== *)
(** * C9 - the rounding of the calculations and of the balance check     *)
(* ===================================================================== *)



(* ===================================================================== *)
(** * Stock: what the two updates of a product do                         *)
(* ===================================================================== *)

Section Stock_document.

Import Stock.

Lemma Qlt_bool_true (a b : Q) : Qlt_bool a b = true <-> a < b.
Proof.
  unfold Qlt_bool. split.
  - intros E. apply negb_true_iff in E. apply Qle_bool_false, E.
  - intros H. apply negb_true_iff. apply not_true_is_false. intros E.
    apply Qle_bool_iff in E. lra.
Qed.

Lemma Qlt_bool_false (a b : Q) : Qlt_bool a b = false <-> b <= a.
Proof.
  unfold Qlt_bool. rewrite negb_false_iff. apply Qle_bool_iff.
Qed.

Lemma trouver_depot_lookup (depotId : string) (l : list DepotStock.t) i d :
  trouver_depot depotId l = Some (i, d) -> l !! i = Some d /\ DepotStock.depot d = depotId.
Proof.
  unfold trouver_depot. intros H. apply list_find_Some in H as (H1 & H2 & _). auto.
Qed.


Lemma depot_negatif_alter (q : Q) (l : list DepotStock.t) i d :
  l !! i = Some d ->
  depot_negatif (alter (ajouter q) i l) i = Qlt_bool (DepotStock.quantite d + q) 0.
Proof.
  intros Hi. unfold depot_negatif. rewrite list_lookup_alter_eq, Hi. reflexivity.
Qed.


(** [_creerMouvement]'s update succeeds exactly when neither the total
    nor the warehouse quantity would become negative, an outbound
    movement on a warehouse without a record being refused as well. *)
Lemma creerMouvement_document_echec (produit : Produit.t) (depotId : string) (q : Q) :
  Produit.quantiteEnStock produit + q < 0 \/ quantite_depot depotId produit + q < 0 ->
  creerMouvement_document produit depotId q
  = Echec (StockInsuffisant (Produit.designation produit))
  \/ (trouver_depot depotId (Produit.stockParDepot produit) = None
      /\ creerMouvement_document produit depotId q = Echec (SortieDepotAbsent depotId)).
Proof.
  intros H. unfold creerMouvement_document, quantite_depot in *.
  destruct (trouver_depot depotId _) as [[i d] | ] eqn:Ef.
  - left. apply trouver_depot_lookup in Ef as [Hi _].
    rewrite (depot_negatif_alter q _ i d Hi).
    destruct H as [H | H].
    + rewrite (proj2 (Qlt_bool_true _ 0) H). reflexivity.
    + rewrite (proj2 (Qlt_bool_true _ 0) H), orb_true_r. reflexivity.
  - destruct (Qlt_bool 0 q) eqn:Eq.
    + left. apply Qlt_bool_true in Eq. destruct H as [H | H]; [ | lra].
      rewrite (proj2 (Qlt_bool_true _ 0) H). reflexivity.
    + right. split; reflexivity.
Qed.



End Stock_document.

(* ===================================================================== *)
(** * Stock: the database level                                           *)
(* ===================================================================== *)

Section Stock_db.

Variable V : Validation.

Import Stock.



(** [mettreAJourStock] changes the database only when it succeeds. *)
Lemma mettreAJourStock_echec (produitId depotId : string) (q : Q) (db : Db) :
  est_echec (snd (mettreAJourStock V produitId depotId q db)) = true ->
  fst (mettreAJourStock V produitId depotId q db) = db.
Proof.
  unfold mettreAJourStock, Produit_save.
  destruct (produits db !! produitId); [ | reflexivity].
  destruct (mettreAJourStock_document _ _ _); [ | reflexivity].
  destruct (valide_produit V _); [discriminate | reflexivity].
Qed.








(** A call that throws leaves the database as it was. *)
Lemma creerMouvement_echec (oid : string) (d : donnees) (db : Db) :
  est_echec (snd (_creerMouvement V oid d db)) = true ->
  fst (_creerMouvement V oid d db) = db.
Proof.
  unfold _creerMouvement.
  destruct (documentLie d) as [source | ]; [ | reflexivity].
  destruct (_ || _); [reflexivity | ].
  destruct (essai_creerMouvement V oid d source db) as [db' [r | e]];
    [discriminate | reflexivity].
Qed.

(** The [try] block stops at [_creerMouvement]'s own guard, before any
    write, when the movement would make a quantity negative. *)
Lemma essai_creerMouvement_negatif (oid : string) (d : donnees)
    (source : DocumentSource) (db : Db) (produit : Produit.t) :
  produits db !! produitId d = Some produit ->
  Produit.quantiteEnStock produit + quantite d < 0
  \/ quantite_depot (depotId d) produit + quantite d < 0 ->
  essai_creerMouvement V oid d source db
  = if negb (Produit.gestionStock produit) then (db, Ok None)
    else (db, Echec (match trouver_depot (depotId d) (Produit.stockParDepot produit) with
                     | Some _ => StockInsuffisant (Produit.designation produit)
                     | None =>
                         if Qlt_bool 0 (quantite d)
                         then StockInsuffisant (Produit.designation produit)
                         else SortieDepotAbsent (depotId d)
                     end)).
Proof.
  intros Ep Hneg. unfold essai_creerMouvement. rewrite Ep.
  destruct (negb (Produit.gestionStock produit)); [reflexivity | ].
  destruct (creerMouvement_document_echec _ _ _ Hneg) as [E | [En E]]; rewrite E.
  - unfold creerMouvement_document in E.
    destruct (trouver_depot _ _) as [[i x] | ]; [reflexivity | ].
    destruct (Qlt_bool 0 (quantite d)); [reflexivity | discriminate].
  - rewrite En. unfold creerMouvement_document in E. rewrite En in E.
    destruct (Qlt_bool 0 (quantite d)); [ | reflexivity].
    destruct (_ || _); discriminate.
Qed.

End Stock_db.

(* ===================================================================== *)
(** * C2 - a movement that would make a quantity negative                 *)
(* ===================================================================== *)

(** C2.  When the signed quantity of a movement recorded through
    [_creerMouvement] would make the product's total or the quantity of
    the target warehouse negative, the database is left exactly as it
    was (no movement record, no change of quantity) and no movement is
    returned; for a stock-tracked product the call throws.  An outbound
    movement of 20 units against a warehouse holding 10 throws the
    insufficient-stock error. *)
Theorem creerMouvement_stock_insuffisant
    (V : Validation) (oid : string) (d : Stock.donnees) (db : Db) (produit : Produit.t) :
  produits db !! Stock.produitId d = Some produit ->
  Produit.quantiteEnStock produit + Stock.quantite d < 0
  \/ quantite_depot (Stock.depotId d) produit + Stock.quantite d < 0 ->
  let r := Stock._creerMouvement V oid d db in
  fst r = db
  /\ (forall m, snd r <> Ok (Some m))
  /\ (Produit.gestionStock produit = true ->
      exists e, snd r = Echec e
        /\ (e = DonneesManquantes
            \/ e = StockInsuffisant (Produit.designation produit)
            \/ e = SortieDepotAbsent (Stock.depotId d)))
  /\ Stock._creerMouvement V "M1" (mouvement_exemple "A" (-20)) db_exemple
     = (db_exemple, Echec (StockInsuffisant "Produit P")).
Proof.
  intros Ep Hneg. cbn zeta. unfold Stock._creerMouvement.
  split; [ | split; [ | split; [ | reflexivity]]].
  - destruct (Stock.documentLie d) as [source | ]; [ | reflexivity].
    destruct (_ || _); [reflexivity | ].
    rewrite (essai_creerMouvement_negatif V oid d source db produit Ep Hneg).
    destruct (negb _); reflexivity.
  - intros m. destruct (Stock.documentLie d) as [source | ]; [ | discriminate].
    destruct (_ || _); [discriminate | ].
    rewrite (essai_creerMouvement_negatif V oid d source db produit Ep Hneg).
    destruct (negb _); discriminate.
  - intros Hg. destruct (Stock.documentLie d) as [source | ]; [ | eauto].
    destruct (_ || _); [eauto | ].
    rewrite (essai_creerMouvement_negatif V oid d source db produit Ep Hneg).
    rewrite Hg. cbn [negb snd]. eexists. split; [reflexivity | ].
    destruct (Stock.trouver_depot _ _); [auto | ].
    destruct (Qlt_bool 0 _); auto.
Qed.

Lemma creerMouvement_stock_insuffisant_witness :
  fst (Stock._creerMouvement validation_schemas "M1" (mouvement_exemple "A" (-20)) db_exemple)
  = db_exemple.
Proof.
  apply (creerMouvement_stock_insuffisant validation_schemas "M1"
           (mouvement_exemple "A" (-20)) db_exemple produit_exemple).
  - reflexivity.
  - right. reflexivity.
Defined.

(* ===================================================================== *)
(** * C8 - an outbound movement on a warehouse without a record           *)
(* ===================================================================== *)

Lemma invariant_db_exemple : Spec.invariant_stock db_exemple.
Proof.
  unfold Spec.invariant_stock, db_exemple. cbn [produits set_produits].
  apply map_Forall_singleton.
  split; [reflexivity | split; [discriminate | ]].
  repeat constructor. discriminate.
Qed.

Lemma produit_exemple_negatif_invariant :
  Spec.total_coherent produit_exemple_negatif
  /\ ~ Spec.non_negatif produit_exemple_negatif.
Proof.
  split; [reflexivity | ].
  intros [_ H]. inversion H as [ | ? ? _ H']. inversion H' as [ | ? ? Hb _].
  apply Hb. reflexivity.
Qed.

(** On the service path the rejection is there: an outbound movement of a
    stock-tracked product on a warehouse where it has no record throws
    the no-stock-at-location error and writes nothing. *)
Lemma creerMouvement_sortie_depot_absent
    (V : Validation) (oid : string) (d : Stock.donnees) (source : Stock.DocumentSource)
    (db : Db) (produit : Produit.t) :
  Stock.documentLie d = Some source ->
  falsy (Stock.produitId d) = false -> falsy (Stock.depotId d) = false ->
  falsy (Stock.typeMouvement d) = false -> falsy (Stock.userId d) = false ->
  produits db !! Stock.produitId d = Some produit ->
  Produit.gestionStock produit = true ->
  Stock.trouver_depot (Stock.depotId d) (Produit.stockParDepot produit) = None ->
  Stock.quantite d < 0 ->
  Stock._creerMouvement V oid d db = (db, Echec (SortieDepotAbsent (Stock.depotId d))).
Proof.
  intros Hs H1 H2 H3 H4 Hp Hg Hf Hq.
  unfold Stock._creerMouvement. rewrite Hs, H1, H2, H3, H4.
  assert (E0 : Qeq_bool (Stock.quantite d) 0 = false).
  { apply not_true_is_false. intros E. apply Qeq_bool_iff in E. lra. }
  rewrite E0. cbn [orb].
  unfold Stock.essai_creerMouvement, Stock.creerMouvement_document.
  rewrite Hp, Hg, Hf. cbn [negb].
  rewrite (proj2 (Qlt_bool_false 0 (Stock.quantite d))) by lra.
  reflexivity.
Qed.


(** Without the schema's validation the same movement, saved on its
    own, goes through the hook: the guard of [mettreAJourStock] lets the
    update pass with a warehouse quantity of -3 and the product is
    written as such; the total still equals the sum of the warehouses,
    the non-negativity is lost. *)
Lemma MouvementStock_save_quantite_negative :
  let r := Stock.MouvementStock_save validation_permissive true sortie_depot_B db_exemple in
  Spec.invariant_stock db_exemple
  /\ Stock.mettreAJourStock_document produit_exemple "B" (-3) = Ok produit_exemple_negatif
  /\ est_echec (snd r) = false
  /\ produits (fst r) !! "P"%string = Some produit_exemple_negatif
  /\ Spec.total_coherent produit_exemple_negatif
  /\ ~ Spec.non_negatif produit_exemple_negatif
  /\ ~ Spec.invariant_stock (fst r).
Proof.
  cbn zeta.
  assert (Hl : produits (fst (Stock.MouvementStock_save validation_permissive true
                                sortie_depot_B db_exemple)) !! "P"%string
               = Some produit_exemple_negatif).
  { cbn. apply lookup_insert_eq. }
  split; [exact invariant_db_exemple | ].
  split; [reflexivity | ].
  split; [reflexivity | ].
  split; [exact Hl | ].
  split; [apply produit_exemple_negatif_invariant | ].
  split; [apply produit_exemple_negatif_invariant | ].
  intros H. apply (proj2 produit_exemple_negatif_invariant).
  exact (proj2 (H _ _ Hl)).
Qed.

(* ===================================================================== *)
(** * C10 - the paid amount of the document a payment refers to           *)
(* ===================================================================== *)

Section Paiements.

Import PaiementModel.

Lemma fold_left_somme {A : Type} (f : A -> Q) (l : list A) (a : Q) :
  fold_left (fun acc x => acc + f x) l a == a + somme f l.
Proof.
  revert a. induction l as [ | x l IH]; intros a.
  - unfold somme. cbn [fold_left fold_right]. ring.
  - cbn [fold_left]. rewrite IH, somme_cons. ring.
Qed.

Lemma ecrire_elem {A : Type} (cle : A -> string) (x : A) (l : list A) :
  x ∈ ecrire cle x l.
Proof.
  induction l as [ | y l IH]; cbn [ecrire].
  - apply list_elem_of_singleton. reflexivity.
  - destruct (String.eqb (cle y) (cle x)).
    + apply list_elem_of_here.
    + apply list_elem_of_further, IH.
Qed.

Lemma findByIdAndUpdate_montantPaye (model : ModeleDocument) (documentId : string)
    (totalPaye : Q) (db : Db) :
  is_Some (montantPaye_document model documentId db) ->
  montantPaye_document model documentId (findByIdAndUpdate model documentId totalPaye db)
  = Some (JNumber totalPaye).
Proof.
  unfold montantPaye_document, findByIdAndUpdate.
  destruct model; cbn [factures achats set_factures set_achats];
    rewrite lookup_alter_eq; intros [v Hv].
  - destruct (factures db !! documentId); [reflexivity | discriminate].
  - destruct (achats db !! documentId); [reflexivity | discriminate].
Qed.

Lemma findByIdAndUpdate_paiements (model : ModeleDocument) (documentId : string)
    (totalPaye : Q) (db : Db) :
  paiements (findByIdAndUpdate model documentId totalPaye db) = paiements db.
Proof. destruct model; reflexivity. Qed.

End Paiements.

(** C10.  Once a payment with statut 'Validé' has been saved, the
    [montantPaye] of the document it refers to is the sum of [montant]
    over all the payments of the collection (the saved one included)
    that have statut 'Validé' and refer to that document: a full
    recomputation.  Saving a payment with another statut leaves the
    [montantPaye] of every document unchanged. *)
Theorem Paiement_save_montantPaye (V : Validation) (p : Paiement.t) (db : Db) :
  valide_paiement V p = true ->
  let db' := fst (PaiementModel.Paiement_save V p db) in
  snd (PaiementModel.Paiement_save V p db) = Ok p
  /\ p ∈ paiements db'
  /\ (Paiement.statut p = Valide ->
      is_Some (montantPaye_document (Paiement.documentModel p) (Paiement.documentId p) db) ->
      exists totalPaye : Q,
        montantPaye_document (Paiement.documentModel p) (Paiement.documentId p) db'
        = Some (JNumber totalPaye)
        /\ totalPaye
           == somme Paiement.montant
                (filter (fun x => Paiement.documentId x = Paiement.documentId p
                                  /\ Paiement.statut x = Valide)
                   (paiements db')))
  /\ (Paiement.statut p <> Valide ->
      factures db' = factures db /\ achats db' = achats db).
Proof.
  intros Hv. cbn zeta. unfold PaiementModel.Paiement_save. rewrite Hv.
  cbn [fst snd]. unfold PaiementModel.updateDocumentSolde.
  split; [reflexivity | ].
  destruct (decide (Paiement.statut p = Valide)) as [Hs | Hs].
  - rewrite (bool_decide_eq_true_2 _ Hs). cbn [negb].
    rewrite findByIdAndUpdate_paiements. cbn [paiements set_paiements].
    split; [apply ecrire_elem | ].
    split; [ | intros Hn; contradiction].
    intros _ Hdoc. eexists. split.
    + apply findByIdAndUpdate_montantPaye.
      destruct (Paiement.documentModel p); exact Hdoc.
    + cbn [paiements set_paiements]. unfold PaiementModel.paiements_valides.
      rewrite fold_left_somme. ring.
  - rewrite (bool_decide_eq_false_2 _ Hs). cbn [negb paiements set_paiements].
    split; [apply ecrire_elem | ].
    split; [intros Hn; contradiction | ].
    intros _. split; reflexivity.
Qed.

Lemma Paiement_save_montantPaye_witness :
  exists totalPaye : Q,
    montantPaye_document ModeleFacture "F1"
      (fst (PaiementModel.Paiement_save validation_schemas
              (paiement_exemple "PAY1" 50 Valide) db_comptable))
    = Some (JNumber totalPaye)
    /\ totalPaye
       == somme Paiement.montant
            (filter (fun x => Paiement.documentId x = "F1"%string
                              /\ Paiement.statut x = Valide)
               (paiements (fst (PaiementModel.Paiement_save validation_schemas
                                  (paiement_exemple "PAY1" 50 Valide) db_comptable)))).
Proof.
  refine (proj1 (proj2 (proj2
    (Paiement_save_montantPaye validation_schemas (paiement_exemple "PAY1" 50 Valide)
       db_comptable _))) _ _).
  - reflexivity.
  - reflexivity.
  - exists (JNumber 0). reflexivity.
Defined.

(** Two validated payments of 50 and 30 bring the paid amount to 80; a
    pending payment of 20 then leaves it at 80. *)
Example paiements_successifs :
  let db1 := fst (PaiementModel.Paiement_save validation_schemas
                    (paiement_exemple "PAY1" 50 Valide) db_comptable) in
  let db2 := fst (PaiementModel.Paiement_save validation_schemas
                    (paiement_exemple "PAY2" 30 Valide) db1) in
  let db3 := fst (PaiementModel.Paiement_save validation_schemas
                    (paiement_exemple "PAY3" 20 EnAttente) db2) in
  montantPaye_document ModeleFacture "F1" db2 = Some (JNumber (0 + 50 + 30))
  /\ montantPaye_document ModeleFacture "F1" db3 = Some (JNumber (0 + 50 + 30)).
Proof. split; reflexivity. Qed.

(* ===================================================================== *)
(** * C7 - an invoice is posted once                                      *)
(* ===================================================================== *)

Section Comptabilisation.

Variable V : Validation.

Import ComptabiliteService.


Lemma creerEcriture_echec (oid : string) (data : EcritureComptable.data) (db db' : Db)
    (err : Erreur) :
  _creerEcriture V oid data db = (db', Echec err) -> db' = db.
Proof.
  unfold _creerEcriture.
  destruct (EcritureComptable_save V _ db) as [db1 [e | e]]; intros H; congruence.
Qed.

End Comptabilisation.



(* ===================================================================== *)
(** * C1 - every entry of the ledger is balanced                          *)
(* ===================================================================== *)

Section Ledger_invariant.

Variable V : Validation.








End Ledger_invariant.



(* ===================================================================== *)
(** * Stock: the invariant under the schema's own validation              *)
(* ===================================================================== *)

Section Stock_valide.

Variable V : Validation.

(** The validation enforces the minima of the Produit schema. *)
Hypothesis minima : forall p, valide_produit V p = true -> Spec.non_negatif p.




End Stock_valide.


(* ===================================================================== *)
(** * C3 - the stock invariant                                            *)
(* ===================================================================== *)





(* ===================================================================== *)
(** * More on the rounding                                                *)
(* ===================================================================== *)









(* ===================================================================== *)
(** * calculateTTC, calculateHT, calculateTaxAmount                       *)
(* ===================================================================== *)

Section Taxes.

Import CalculationsSuite.









End Taxes.

(* ===================================================================== *)
(** * The margin of a product                                             *)
(* ===================================================================== *)

(** X8.  The gross margin of a product (the virtual [margeBrute]), once
    rounded, is the margin [calculateMarginPercentage] gives, as long as
    neither price is 0.  When the cost is 0 the virtual is 0 where the
    function is [Infinity]; when the sale price is 0 the virtual is 0
    where the function gives -100. *)
Theorem margeBrute_calculateMarginPercentage (prixVenteHT prixAchat tauxTVA : Q) :
  let produit := {| ProduitPrix.prixAchat := prixAchat;
                    ProduitPrix.prixVenteHT := prixVenteHT;
                    ProduitPrix.tauxTVA := tauxTVA |} in
  (~ prixVenteHT == 0 -> ~ prixAchat == 0 ->
     CalculationsSuite.calculateMarginPercentage prixVenteHT prixAchat
     = CalculationsSuite.Fini (roundFinancial (ProduitPrix.margeBrute produit)))
  /\ (prixAchat == 0 ->
      ProduitPrix.margeBrute produit = 0
      /\ CalculationsSuite.calculateMarginPercentage prixVenteHT prixAchat
         = CalculationsSuite.Infinity)
  /\ (prixVenteHT == 0 -> ~ prixAchat == 0 ->
      ProduitPrix.margeBrute produit = 0
      /\ exists m, CalculationsSuite.calculateMarginPercentage prixVenteHT prixAchat
                   = CalculationsSuite.Fini m /\ m == -100).
Proof.
  cbn zeta. unfold ProduitPrix.margeBrute, CalculationsSuite.calculateMarginPercentage.
  cbn [ProduitPrix.prixVenteHT ProduitPrix.prixAchat ProduitPrix.nul].
  split; [ | split].
  - intros Hp Hc.
    assert (Ep : Qeq_bool prixVenteHT 0 = false).
    { apply not_true_is_false. intros E. apply Qeq_bool_iff in E. contradiction. }
    assert (Ec : Qeq_bool prixAchat 0 = false).
    { apply not_true_is_false. intros E. apply Qeq_bool_iff in E. contradiction. }
    rewrite Ep, Ec. reflexivity.
  - intros Hc. rewrite (proj2 (Qeq_bool_iff prixAchat 0) Hc).
    rewrite !orb_true_r. split; reflexivity.
  - intros Hp Hc. rewrite (proj2 (Qeq_bool_iff prixVenteHT 0) Hp).
    assert (Ec : Qeq_bool prixAchat 0 = false).
    { apply not_true_is_false. intros E. apply Qeq_bool_iff in E. contradiction. }
    rewrite Ec. cbn [orb]. split; [reflexivity | ].
    eexists. split; [reflexivity | ].
    assert (E : (prixVenteHT - prixAchat) / prixAchat * 100 == -100).
    { rewrite Hp. field. exact Hc. }
    rewrite (roundFinancial_comp _ _ E). reflexivity.
Qed.

Lemma margeBrute_calculateMarginPercentage_witness :
  CalculationsSuite.calculateMarginPercentage 150 100
  = CalculationsSuite.Fini
      (roundFinancial
         (ProduitPrix.margeBrute
            {| ProduitPrix.prixAchat := 100; ProduitPrix.prixVenteHT := 150;
               ProduitPrix.tauxTVA := 18 |}))
  /\ ProduitPrix.margeBrute
       {| ProduitPrix.prixAchat := 0; ProduitPrix.prixVenteHT := 150;
          ProduitPrix.tauxTVA := 18 |} = 0
  /\ ProduitPrix.margeBrute
       {| ProduitPrix.prixAchat := 100; ProduitPrix.prixVenteHT := 0;
          ProduitPrix.tauxTVA := 18 |} = 0.
Proof.
  split; [ | split].
  - apply (proj1 (margeBrute_calculateMarginPercentage 150 100 18)); discriminate.
  - apply (proj1 (proj2 (margeBrute_calculateMarginPercentage 150 0 18))). reflexivity.
  - apply (proj2 (proj2 (margeBrute_calculateMarginPercentage 0 100 18)));
      [reflexivity | discriminate].
Defined.

(* ===================================================================== *)
(** * More on the allocation of a payment                                 *)
(* ===================================================================== *)

Section Repartition_suite.

Import CalculService.








End Repartition_suite.

(* ===================================================================== *)
(** * The pre-save hook of a sale                                         *)
(* ===================================================================== *)

Section Vente_hook.

Lemma fold_cumuler_vente (lignes : list LigneVente.t) (a b c : Q) :
  let '(ht, remise, tva) := fold_left Vente.cumuler lignes (a, b, c) in
  ht == a + somme LigneVente.totalLigneHT lignes
  /\ remise == b + somme LigneVente.montantRemise lignes
  /\ tva == c + somme LigneVente.montantTVA lignes.
Proof.
  revert a b c. induction lignes as [ | l lignes IH]; intros a b c.
  - cbn [fold_left]. unfold somme. cbn [fold_right]. repeat split; ring.
  - cbn [fold_left Vente.cumuler]. rewrite !somme_cons.
    specialize (IH (a + LigneVente.totalLigneHT l) (b + LigneVente.montantRemise l)
                  (c + LigneVente.montantTVA l)).
    destruct (fold_left Vente.cumuler lignes _) as [[ht remise] tva].
    destruct IH as (H1 & H2 & H3). rewrite H1, H2, H3. repeat split; ring.
Qed.

Lemma somme_totalLigneTTC (lignes : list LigneVente.t) :
  somme LigneVente.totalLigneTTC lignes
  == somme LigneVente.totalLigneHT lignes - somme LigneVente.montantRemise lignes
     + somme LigneVente.montantTVA lignes.
Proof.
  induction lignes as [ | l lignes IH].
  - unfold somme. cbn [fold_right]. ring.
  - rewrite !somme_cons, IH.
    unfold LigneVente.totalLigneTTC, LigneVente.totalLigneApresRemiseHT. ring.
Qed.


(** X12.  After the pre-save hook of a sale, the three totals are the
    sums of the line virtuals, the total with tax is the sum of the
    lines' [totalLigneTTC], and the payment status is 'Payé' exactly
    when the amount paid reaches that sum, 'Non payé' exactly when it
    does not and is not positive. *)
Theorem Vente_pre_save_totaux (this : Vente.t) :
  let v := Vente.pre_save this in
  let ttc := somme LigneVente.totalLigneTTC (Vente.lignes this) in
  Vente.totalHT v == somme LigneVente.totalLigneHT (Vente.lignes this)
  /\ Vente.totalRemise v == somme LigneVente.montantRemise (Vente.lignes this)
  /\ Vente.totalTVA v == somme LigneVente.montantTVA (Vente.lignes this)
  /\ Vente.totalTTC v == ttc
  /\ (Vente.statutPaiement v = Paye <-> ttc <= Vente.montantPaye this)
  /\ (Vente.statutPaiement v = NonPaye
      <-> Vente.montantPaye this < ttc /\ Vente.montantPaye this <= 0).
Proof.
  cbn zeta. unfold Vente.pre_save.
  pose proof (fold_cumuler_vente (Vente.lignes this) 0 0 0) as H.
  pose proof (somme_totalLigneTTC (Vente.lignes this)) as Httc.
  destruct (fold_left Vente.cumuler (Vente.lignes this) (0, 0, 0)) as [[ht remise] tva].
  destruct H as (H1 & H2 & H3).
  cbn [Vente.totalHT Vente.totalRemise Vente.totalTVA Vente.totalTTC
       Vente.statutPaiement].
  set (p := Vente.montantPaye this) in *.
  assert (E : ht - remise + tva == somme LigneVente.totalLigneTTC (Vente.lignes this)).
  { rewrite Httc, H1, H2, H3. ring. }
  split; [rewrite H1; ring | ].
  split; [rewrite H2; ring | ].
  split; [rewrite H3; ring | ].
  split; [exact E | ].
  destruct (Qle_bool (ht - remise + tva) p) eqn:E1.
  - apply Qle_bool_iff in E1. split.
    + split; [intros _; lra | reflexivity].
    + split; [discriminate | intros [Hlt _]; lra].
  - apply Qle_bool_false in E1.
    destruct (Qlt_bool 0 p) eqn:E2; cbn [andb].
    + apply Qlt_bool_true in E2.
      rewrite (proj2 (Qlt_bool_true p (ht - remise + tva)) E1).
      split; split; try discriminate; intros; lra.
    + apply Qlt_bool_false in E2.
      split; [split; [discriminate | intros; lra] | ].
      split; [intros _; split; lra | reflexivity].
Qed.



End Vente_hook.

(* ===================================================================== *)
(** * More on payments                                                    *)
(* ===================================================================== *)

Section Paiements_suite.

Import PaiementModel.

Lemma ecrire_ecrire {A : Type} (cle : A -> string) (x x' : A) (l : list A) :
  cle x' = cle x -> ecrire cle x' (ecrire cle x l) = ecrire cle x' l.
Proof.
  intros Hc. induction l as [ | y l IH]; cbn [ecrire].
  - rewrite Hc, String.eqb_refl. reflexivity.
  - rewrite Hc. destruct (String.eqb (cle y) (cle x)) eqn:E; cbn [ecrire].
    + rewrite Hc, String.eqb_refl. reflexivity.
    + rewrite Hc, E. rewrite IH. reflexivity.
Qed.

Lemma set_paiements_id (db : Db) : set_paiements db (paiements db) = db.
Proof. destruct db. reflexivity. Qed.

Lemma findByIdAndUpdate_twice (model : ModeleDocument) (documentId : string)
    (totalPaye : Q) (db : Db) (l : list Paiement.t) :
  findByIdAndUpdate model documentId totalPaye
    (set_paiements (findByIdAndUpdate model documentId totalPaye db) l)
  = set_paiements (findByIdAndUpdate model documentId totalPaye db) l.
Proof.
  assert (Hf : forall (A : Type) (f : A -> A) (m : gmap string A),
             (forall x, f (f x) = f x) ->
             alter f documentId (alter f documentId m) = alter f documentId m).
  { intros A f m Hff. apply map_eq. intros k.
    destruct (decide (documentId = k)) as [<- | Hne].
    - rewrite !lookup_alter_eq. destruct (m !! documentId); cbn; [ | reflexivity].
      rewrite Hff. reflexivity.
    - rewrite !lookup_alter_ne by exact Hne. reflexivity. }
  destruct db as [pa ec fa ac pr mo pai].
  destruct model;
    unfold findByIdAndUpdate, set_paiements, set_factures, set_achats;
    cbn [parametres ecritures factures achats produits mouvementsStock paiements];
    rewrite Hf; reflexivity.
Qed.

(** X14.  Saving a payment again, unchanged, changes nothing: the
    collection holds it once and the balance of its document, computed
    anew from all the validated payments, is the same. *)
Theorem Paiement_save_idempotent (V : Validation) (p : Paiement.t) (db : Db) :
  Paiement_save V p (fst (Paiement_save V p db)) = Paiement_save V p db.
Proof.
  unfold Paiement_save. destruct (valide_paiement V p) eqn:Ev; cbn [fst].
  - f_equal. unfold updateDocumentSolde.
    destruct (negb (bool_decide (Paiement.statut p = Valide))).
    + cbn [paiements set_paiements].
      rewrite (ecrire_ecrire Paiement._id p p) by reflexivity.
      destruct db. reflexivity.
    + cbn [paiements set_paiements].
      rewrite !findByIdAndUpdate_paiements. cbn [paiements set_paiements].
      rewrite (ecrire_ecrire Paiement._id p p) by reflexivity.
      rewrite findByIdAndUpdate_twice.
      destruct db, (Paiement.documentModel p); reflexivity.
  - reflexivity.
Qed.

(** X15.  After a validated payment is removed, the [montantPaye] of its
    document is the sum of the validated payments that remain; the
    removed payment is no longer in the collection.  Removing a payment
    with another statut leaves every document as it was. *)
Theorem Paiement_remove_montantPaye (p : Paiement.t) (db : Db) :
  let db' := PaiementRemove.Paiement_remove p db in
  paiements db' = filter (fun x => Paiement._id x <> Paiement._id p) (paiements db)
  /\ (p ∉ paiements db')
  /\ (Paiement.statut p = Valide ->
      is_Some (montantPaye_document (Paiement.documentModel p) (Paiement.documentId p) db) ->
      exists totalPaye : Q,
        montantPaye_document (Paiement.documentModel p) (Paiement.documentId p) db'
        = Some (JNumber totalPaye)
        /\ totalPaye
           == somme Paiement.montant
                (paiements_valides (Paiement.documentId p) (paiements db')))
  /\ (Paiement.statut p <> Valide ->
      factures db' = factures db /\ achats db' = achats db).
Proof.
  cbn zeta. unfold PaiementRemove.Paiement_remove, updateDocumentSolde.
  assert (Hnotin : p ∉ filter (fun x => Paiement._id x <> Paiement._id p) (paiements db)).
  { intros Hin. apply list_elem_of_filter in Hin as [Hne _]. apply Hne. reflexivity. }
  destruct (decide (Paiement.statut p = Valide)) as [Hs | Hs].
  - rewrite (bool_decide_eq_true_2 _ Hs). cbn [negb].
    rewrite findByIdAndUpdate_paiements. cbn [paiements set_paiements].
    split; [reflexivity | split; [exact Hnotin | split; [ | intros Hn; contradiction]]].
    intros _ Hdoc. eexists. split.
    + apply findByIdAndUpdate_montantPaye.
      destruct (Paiement.documentModel p); exact Hdoc.
    + rewrite fold_left_somme. ring.
  - rewrite (bool_decide_eq_false_2 _ Hs). cbn [negb paiements set_paiements].
    split; [reflexivity | split; [exact Hnotin | split; [intros Hn; contradiction | ]]].
    intros _. split; reflexivity.
Qed.

Lemma Paiement_remove_montantPaye_witness :
  exists totalPaye : Q,
    montantPaye_document ModeleFacture "F1"
      (PaiementRemove.Paiement_remove (paiement_exemple "PAY1" 50 Valide)
         (fst (Paiement_save validation_schemas (paiement_exemple "PAY1" 50 Valide)
                 db_comptable)))
    = Some (JNumber totalPaye)
    /\ totalPaye
       == somme Paiement.montant
            (paiements_valides "F1"
               (paiements
                  (PaiementRemove.Paiement_remove (paiement_exemple "PAY1" 50 Valide)
                     (fst (Paiement_save validation_schemas
                             (paiement_exemple "PAY1" 50 Valide) db_comptable))))).
Proof.
  refine (proj1 (proj2 (proj2
    (Paiement_remove_montantPaye (paiement_exemple "PAY1" 50 Valide)
       (fst (Paiement_save validation_schemas (paiement_exemple "PAY1" 50 Valide)
               db_comptable))))) _ _).
  - reflexivity.
  - exists (JNumber (0 + 50)). reflexivity.
Defined.

Lemma somme_valides_ecrire (p p' : Paiement.t) (l : list Paiement.t) :
  Paiement._id p' = Paiement._id p ->
  Paiement.statut p = Valide -> Paiement.statut p' <> Valide ->
  somme Paiement.montant (paiements_valides (Paiement.documentId p)
                            (ecrire Paiement._id p l))
  == somme Paiement.montant (paiements_valides (Paiement.documentId p)
                               (ecrire Paiement._id p' l))
     + Paiement.montant p.
Proof.
  intros Hid Hs Hs'. unfold paiements_valides.
  induction l as [ | y l IH]; cbn [ecrire].
  - rewrite filter_cons_True by (split; [reflexivity | exact Hs]).
    rewrite filter_cons_False by (intros [_ H]; contradiction).
    rewrite filter_nil, somme_cons. ring.
  - rewrite Hid. destruct (String.eqb (Paiement._id y) (Paiement._id p)).
    + rewrite filter_cons_True by (split; [reflexivity | exact Hs]).
      rewrite (filter_cons_False _ p') by (intros [_ H]; contradiction).
      rewrite somme_cons. ring.
    + rewrite !filter_cons.
      destruct (decide (Paiement.documentId y = Paiement.documentId p
                        /\ Paiement.statut y = Valide)).
      * rewrite !somme_cons, IH. ring.
      * exact IH.
Qed.

(** X16.  A validated payment that is saved again with another statut
    (cancelled, say) keeps counting: the [montantPaye] of its document
    is not recomputed, and exceeds the sum of the validated payments
    that remain by the amount of that payment. *)
Theorem Paiement_save_annulation (V : Validation) (p p' : Paiement.t) (db : Db) :
  valide_paiement V p = true -> valide_paiement V p' = true ->
  Paiement._id p' = Paiement._id p ->
  Paiement.statut p = Valide -> Paiement.statut p' <> Valide ->
  is_Some (montantPaye_document (Paiement.documentModel p) (Paiement.documentId p) db) ->
  let db1 := fst (Paiement_save V p db) in
  let db2 := fst (Paiement_save V p' db1) in
  exists totalPaye : Q,
    montantPaye_document (Paiement.documentModel p) (Paiement.documentId p) db1
    = Some (JNumber totalPaye)
    /\ montantPaye_document (Paiement.documentModel p) (Paiement.documentId p) db2
       = Some (JNumber totalPaye)
    /\ totalPaye
       == somme Paiement.montant
            (paiements_valides (Paiement.documentId p) (paiements db2))
          + Paiement.montant p.
Proof.
  intros Hv Hv' Hid Hs Hs' Hdoc. cbn zeta.
  unfold Paiement_save. rewrite Hv. cbn [fst]. unfold updateDocumentSolde.
  rewrite (bool_decide_eq_true_2 _ Hs). cbn [negb].
  rewrite Hv'. cbn [fst].
  rewrite (bool_decide_eq_false_2 _ Hs'). cbn [negb].
  rewrite !findByIdAndUpdate_paiements. cbn [paiements set_paiements].
  rewrite (ecrire_ecrire Paiement._id p p' (paiements db) Hid).
  eexists. split; [ | split].
  - apply findByIdAndUpdate_montantPaye.
    destruct (Paiement.documentModel p); exact Hdoc.
  - assert (H : forall db0 l,
               montantPaye_document (Paiement.documentModel p) (Paiement.documentId p)
                 (set_paiements db0 l)
               = montantPaye_document (Paiement.documentModel p) (Paiement.documentId p) db0).
    { intros db0 l. destruct (Paiement.documentModel p); reflexivity. }
    rewrite H. apply findByIdAndUpdate_montantPaye.
    destruct (Paiement.documentModel p); exact Hdoc.
  - rewrite fold_left_somme.
    rewrite (somme_valides_ecrire p p' (paiements db) Hid Hs Hs'). ring.
Qed.

Lemma Paiement_save_annulation_witness :
  exists totalPaye : Q,
    montantPaye_document ModeleFacture "F1"
      (fst (Paiement_save validation_schemas (paiement_exemple "PAY1" 50 Valide)
              db_comptable))
    = Some (JNumber totalPaye)
    /\ montantPaye_document ModeleFacture "F1"
         (fst (Paiement_save validation_schemas (paiement_exemple "PAY1" 50 Annule)
                 (fst (Paiement_save validation_schemas
                         (paiement_exemple "PAY1" 50 Valide) db_comptable))))
       = Some (JNumber totalPaye)
    /\ totalPaye
       == somme Paiement.montant
            (paiements_valides "F1"
               (paiements
                  (fst (Paiement_save validation_schemas
                          (paiement_exemple "PAY1" 50 Annule)
                          (fst (Paiement_save validation_schemas
                                  (paiement_exemple "PAY1" 50 Valide) db_comptable))))))
          + 50.
Proof.
  refine (Paiement_save_annulation validation_schemas
            (paiement_exemple "PAY1" 50 Valide) (paiement_exemple "PAY1" 50 Annule)
            db_comptable _ _ _ _ _ _).
  - reflexivity.
  - reflexivity.
  - reflexivity.
  - reflexivity.
  - discriminate.
  - exists (JNumber 0). reflexivity.
Defined.

End Paiements_suite.

(* ===================================================================== *)
(** * More on the stock service                                           *)
(* ===================================================================== *)

Section Stock_suite.

Variable V : Validation.

Import Stock.

Lemma Produit_save_mouvements (p : Produit.t) (db : Db) :
  mouvementsStock (fst (Produit_save V p db)) = mouvementsStock db.
Proof. unfold Produit_save. destruct (valide_produit V p); reflexivity. Qed.

Lemma mettreAJourStock_mouvements (produitId depotId : string) (q : Q) (db : Db) :
  mouvementsStock (fst (mettreAJourStock V produitId depotId q db)) = mouvementsStock db.
Proof.
  unfold mettreAJourStock.
  destruct (produits db !! produitId) as [p | ]; [ | reflexivity].
  destruct (mettreAJourStock_document p depotId q) as [p' | e]; [ | reflexivity].
  apply Produit_save_mouvements.
Qed.

Lemma MouvementStock_save_nouveau (m m' : MouvementStock.t) (db db' : Db) :
  MouvementStock_save V true m db = (db', Ok m') ->
  mouvementsStock db' = mouvementsStock db ++ [m']
  /\ m' = MouvementStock.avec_valeur m
            (MouvementStock.quantite m * MouvementStock.coutUnitaire m).
Proof.
  unfold MouvementStock_save, MouvementStock_pre_save.
  destruct (valide_mouvement V m); [ | discriminate].
  cbn [MouvementStock.avec_valeur MouvementStock.produit MouvementStock.depot
       MouvementStock.quantite].
  pose proof (mettreAJourStock_mouvements (MouvementStock.produit m)
                (MouvementStock.depot m) (MouvementStock.quantite m) db) as Hm.
  destruct (mettreAJourStock V _ _ _ db) as [db1 [p | e]]; [ | discriminate].
  cbn [fst] in Hm. intros H. injection H as <- <-.
  cbn [mouvementsStock set_mouvementsStock]. rewrite Hm. split; reflexivity.
Qed.

(** What a call of [_creerMouvement] leaves in the journal. *)
Lemma creerMouvement_cases (oid : string) (d : donnees) (db : Db) :
  match snd (_creerMouvement V oid d db) with
  | Ok (Some m) =>
      mouvementsStock (fst (_creerMouvement V oid d db)) = mouvementsStock db ++ [m]
      /\ MouvementStock._id m = oid
      /\ MouvementStock.produit m = produitId d
      /\ MouvementStock.depot m = depotId d
      /\ MouvementStock.quantite m = quantite d
      /\ MouvementStock.typeMouvement m = typeMouvement d
      /\ MouvementStock.realisePar m = userId d
      /\ MouvementStock.valeurMouvement m = quantite d * MouvementStock.coutUnitaire m
      /\ ~ quantite d == 0
      /\ exists p, produits db !! produitId d = Some p
                   /\ Produit.gestionStock p = true
                   /\ MouvementStock.coutUnitaire m = Produit.prixAchat p
  | Ok None =>
      fst (_creerMouvement V oid d db) = db
      /\ exists p, produits db !! produitId d = Some p /\ Produit.gestionStock p = false
  | Echec _ => fst (_creerMouvement V oid d db) = db
  end.
Proof.
  unfold _creerMouvement.
  destruct (documentLie d) as [source | ]; [ | reflexivity].
  destruct (falsy (produitId d)); [reflexivity | ].
  destruct (falsy (depotId d)); [reflexivity | ].
  destruct (Qeq_bool (quantite d) 0) eqn:Eq; [reflexivity | ].
  cbn [orb].
  destruct (falsy (typeMouvement d)); [reflexivity | ].
  destruct (falsy (userId d)); [reflexivity | ].
  cbn [orb]. unfold essai_creerMouvement.
  destruct (produits db !! produitId d) as [p | ] eqn:Ep; [ | reflexivity].
  destruct (Produit.gestionStock p) eqn:Eg; cbn [negb].
  2:{ cbn [fst snd]. split; [reflexivity | ]. exists p. split; [reflexivity | exact Eg]. }
  destruct (creerMouvement_document p (depotId d) (quantite d)) as [p1 | e] eqn:Ed;
    [ | reflexivity].
  assert (Hprix : Produit.prixAchat p1 = Produit.prixAchat p).
  { unfold creerMouvement_document in Ed.
    destruct (trouver_depot _ _) as [[i x] | ].
    - destruct (_ || _); [discriminate | ]. injection Ed as <-. reflexivity.
    - destruct (Qlt_bool 0 _); [ | discriminate].
      destruct (_ || _); [discriminate | ]. injection Ed as <-. reflexivity. }
  pose proof (Produit_save_mouvements p1 db) as Hs.
  destruct (Produit_save V p1 db) as [db1 [p1' | e]]; [ | reflexivity].
  cbn [fst] in Hs.
  match goal with
  | |- context [MouvementStock_save V true ?mv db1] => set (m := mv)
  end.
  destruct (MouvementStock_save V true m db1) as [db2 [m' | e]] eqn:Em; [ | reflexivity].
  apply MouvementStock_save_nouveau in Em as [Hj ->]. cbn [fst snd].
  rewrite Hj, Hs. subst m.
  cbn [MouvementStock.avec_valeur MouvementStock._id MouvementStock.produit
       MouvementStock.depot MouvementStock.quantite MouvementStock.typeMouvement
       MouvementStock.realisePar MouvementStock.valeurMouvement
       MouvementStock.coutUnitaire].
  repeat (split; [reflexivity | ]).
  split.
  - intros H. apply Qeq_bool_iff in H. congruence.
  - exists p. split; [reflexivity | split; [exact Eg | exact Hprix]].
Qed.

(** X17.  A call of [_creerMouvement] either leaves the database as it
    was - when it throws, and when the product is not stock-managed,
    where it returns no movement - or appends exactly one movement to
    the journal: the one it returns, which carries the product, the
    warehouse, the (non-zero) quantity, the type and the user of the
    call, the purchase price of the product as unit cost, and
    [valeurMouvement = quantite * coutUnitaire]. *)
Theorem creerMouvement_journal (oid : string) (d : donnees) (db : Db) :
  match snd (_creerMouvement V oid d db) with
  | Ok (Some m) =>
      mouvementsStock (fst (_creerMouvement V oid d db)) = mouvementsStock db ++ [m]
      /\ MouvementStock._id m = oid
      /\ MouvementStock.produit m = produitId d
      /\ MouvementStock.depot m = depotId d
      /\ MouvementStock.quantite m = quantite d
      /\ MouvementStock.typeMouvement m = typeMouvement d
      /\ MouvementStock.realisePar m = userId d
      /\ MouvementStock.valeurMouvement m = quantite d * MouvementStock.coutUnitaire m
      /\ ~ quantite d == 0
      /\ exists p, produits db !! produitId d = Some p
                   /\ Produit.gestionStock p = true
                   /\ MouvementStock.coutUnitaire m = Produit.prixAchat p
  | Ok None =>
      fst (_creerMouvement V oid d db) = db
      /\ exists p, produits db !! produitId d = Some p /\ Produit.gestionStock p = false
  | Echec _ => fst (_creerMouvement V oid d db) = db
  end.
Proof. apply creerMouvement_cases. Qed.

Import StockOperations.

Variable oid : nat -> string.

Lemma boucle_lignes_app (donnees : LigneBon -> Stock.donnees) (l1 l2 : list LigneBon) :
  forall (i : nat) (db : Db),
    boucle_lignes V oid donnees i (l1 ++ l2) db
    = match boucle_lignes V oid donnees i l1 db with
      | (db1, Ok _) => boucle_lignes V oid donnees (i + length l1) l2 db1
      | (db1, Echec e) => (db1, Echec e)
      end.
Proof.
  induction l1 as [ | ligne l1 IH]; intros i db; cbn [boucle_lignes app length].
  - rewrite Nat.add_0_r. reflexivity.
  - destruct (_creerMouvement V (oid i) (donnees ligne) db) as [db1 [r | e]];
      [ | reflexivity].
    rewrite IH. replace (S i + length l1)%nat with (i + S (length l1))%nat by lia.
    reflexivity.
Qed.


(** The journal after the loop: the movements of the lines, in order. *)
Lemma boucle_lignes_journal (donnees : LigneBon -> Stock.donnees)
    (lignes : list LigneBon) :
  forall (i : nat) (db : Db),
    exists ms : list MouvementStock.t,
      mouvementsStock (fst (boucle_lignes V oid donnees i lignes db))
      = mouvementsStock db ++ ms
      /\ (length ms <= length lignes)%nat
      /\ Forall (fun m => exists ligne, ligne ∈ lignes
                   /\ MouvementStock.produit m = Stock.produitId (donnees ligne)
                   /\ MouvementStock.depot m = Stock.depotId (donnees ligne)
                   /\ MouvementStock.quantite m = Stock.quantite (donnees ligne)
                   /\ MouvementStock.typeMouvement m = Stock.typeMouvement (donnees ligne)
                   /\ MouvementStock.realisePar m = Stock.userId (donnees ligne)) ms.
Proof.
  induction lignes as [ | ligne lignes IH]; intros i db; cbn [boucle_lignes].
  - exists []. rewrite app_nil_r. split; [reflexivity | split; [reflexivity | constructor]].
  - pose proof (creerMouvement_cases (oid i) (donnees ligne) db) as H.
    destruct (_creerMouvement V (oid i) (donnees ligne) db) as [db1 [[m | ] | e]];
      cbn [fst snd] in H.
    + destruct H as (Hj & _ & Hp & Hd & Hq & Ht & Hu & _).
      destruct (IH (S i) db1) as (ms & Hms & Hlen & Hall).
      exists (m :: ms). rewrite Hms, Hj, <- app_assoc. split; [reflexivity | ].
      split; [cbn [length]; lia | ].
      constructor.
      * exists ligne. split; [left | ]. repeat split; assumption.
      * eapply Forall_impl; [exact Hall | ].
        intros x (l & Hin & Hx). exists l. split; [right; exact Hin | exact Hx].
    + destruct H as [-> _].
      destruct (IH (S i) db) as (ms & Hms & Hlen & Hall).
      exists ms. split; [exact Hms | split; [cbn [length]; lia | ]].
      eapply Forall_impl; [exact Hall | ].
      intros x (l & Hin & Hx). exists l. split; [right; exact Hin | exact Hx].
    + subst db1. exists []. rewrite app_nil_r.
      split; [reflexivity | split; [cbn [length]; lia | constructor]].
Qed.


(** X19.  A delivery or a reception only appends to the journal of
    movements: at most one movement per line, in the order of the
    lines, each with the product and quantity of a line of the note
    (the quantity delivered negated, the quantity received as it is),
    on the warehouse and for the user of the call, with the type
    'SORTIE_VENTE' or 'ENTREE_ACHAT'. *)
Theorem gerer_journal (bon : Bon) (depotId userId : string) (db : Db) :
  (exists ms : list MouvementStock.t,
      mouvementsStock (fst (gererSortieVente V oid bon depotId userId db))
      = mouvementsStock db ++ ms
      /\ (length ms <= length (bon_lignes bon))%nat
      /\ Forall (fun m => MouvementStock.depot m = depotId
                   /\ MouvementStock.typeMouvement m = "SORTIE_VENTE"%string
                   /\ MouvementStock.realisePar m = userId
                   /\ exists ligne, ligne ∈ bon_lignes bon
                        /\ MouvementStock.produit m = ligne_produit ligne
                        /\ MouvementStock.quantite m = - ligne_quantite ligne) ms)
  /\ (exists ms : list MouvementStock.t,
      mouvementsStock (fst (gererEntreeAchat V oid bon depotId userId db))
      = mouvementsStock db ++ ms
      /\ (length ms <= length (bon_lignes bon))%nat
      /\ Forall (fun m => MouvementStock.depot m = depotId
                   /\ MouvementStock.typeMouvement m = "ENTREE_ACHAT"%string
                   /\ MouvementStock.realisePar m = userId
                   /\ exists ligne, ligne ∈ bon_lignes bon
                        /\ MouvementStock.produit m = ligne_produit ligne
                        /\ MouvementStock.quantite m = ligne_quantite ligne) ms).
Proof.
  split.
  - destruct (boucle_lignes_journal (donnees_sortie bon depotId userId)
                (bon_lignes bon) 0 db) as (ms & Hms & Hlen & Hall).
    exists ms. split; [exact Hms | split; [exact Hlen | ]].
    eapply Forall_impl; [exact Hall | ].
    intros m (l & Hin & Hp & Hd & Hq & Ht & Hu). cbn in Hp, Hd, Hq, Ht, Hu.
    split; [exact Hd | split; [exact Ht | split; [exact Hu | ]]].
    exists l. split; [exact Hin | split; [exact Hp | exact Hq]].
  - destruct (boucle_lignes_journal (donnees_entree bon depotId userId)
                (bon_lignes bon) 0 db) as (ms & Hms & Hlen & Hall).
    exists ms. split; [exact Hms | split; [exact Hlen | ]].
    eapply Forall_impl; [exact Hall | ].
    intros m (l & Hin & Hp & Hd & Hq & Ht & Hu). cbn in Hp, Hd, Hq, Ht, Hu.
    split; [exact Hd | split; [exact Ht | split; [exact Hu | ]]].
    exists l. split; [exact Hin | split; [exact Hp | exact Hq]].
Qed.

(** X20.  A delivery is not atomic across its lines: each line is its
    own transaction.  When the lines before a line went through and that
    line throws, [gererSortieVente] throws the same error and the
    database is the one the lines before it left: their movements stay
    recorded and the lines after it are not processed. *)
Theorem gererSortieVente_partielle (document : Stock.DocumentSource)
    (l1 l2 : list LigneBon) (ligne : LigneBon) (depotId userId : string)
    (db db1 : Db) (e : Erreur) :
  let bon := {| bon_document := document; bon_lignes := l1 ++ ligne :: l2 |} in
  gererSortieVente V oid {| bon_document := document; bon_lignes := l1 |}
    depotId userId db = (db1, Ok tt) ->
  _creerMouvement V (oid (length l1)) (donnees_sortie bon depotId userId ligne) db1
  = (db1, Echec e) ->
  gererSortieVente V oid bon depotId userId db = (db1, Echec e).
Proof.
  cbn zeta. unfold gererSortieVente. cbn [bon_lignes bon_document].
  intros H1 H2. rewrite boucle_lignes_app.
  change (donnees_sortie {| bon_document := document; bon_lignes := l1 |} depotId userId)
    with (donnees_sortie {| bon_document := document; bon_lignes := l1 ++ ligne :: l2 |}
            depotId userId) in H1.
  rewrite H1. cbn [boucle_lignes Nat.add]. rewrite H2. reflexivity.
Qed.

(** X21.  An inventory adjustment: for an unknown product it throws and
    writes nothing; when the quantity counted is the quantity on record
    in the warehouse (0 when the product has no record there) it does
    nothing at all; and a negative count never changes the database,
    whatever the outcome. *)
Theorem ajusterStockInventaire_bornes (produitId depotId userId : string)
    (quantiteReelle : Q) (inventaireDoc : option Stock.DocumentSource) (db : Db) :
  let r := ajusterStockInventaire V oid produitId depotId quantiteReelle
             inventaireDoc userId db in
  (produits db !! produitId = None -> r = (db, inl ProduitInventaireNonTrouve))
  /\ (forall p, produits db !! produitId = Some p ->
        quantiteReelle == quantite_depot depotId p -> r = (db, inr tt))
  /\ (quantiteReelle < 0 -> fst r = db)
  /\ (inventaireDoc = None -> fst r = db).
Proof.
  cbn zeta. unfold ajusterStockInventaire. split; [ | split; [ | split]].
  - intros ->. reflexivity.
  - intros p -> Hq.
    assert (E : Qeq_bool (quantiteReelle - quantite_depot depotId p) 0 = true).
    { apply Qeq_bool_iff. rewrite Hq. ring. }
    unfold quantite_depot in E. cbv beta iota zeta. rewrite E. reflexivity.
  - intros Hneg.
    destruct (produits db !! produitId) as [p | ] eqn:Ep; [ | reflexivity].
    destruct (negb _); [ | reflexivity].
    unfold _creerMouvement.
    cbn [Stock.documentLie Stock.produitId Stock.depotId Stock.quantite
         Stock.typeMouvement Stock.userId].
    destruct inventaireDoc as [source | ]; [ | reflexivity].
    destruct (_ || _); [reflexivity | ].
    match goal with
    | |- context [essai_creerMouvement V ?o ?d source db] =>
        pose proof (essai_creerMouvement_negatif V o d source db p Ep) as H
    end.
    cbn [Stock.produitId Stock.depotId Stock.quantite] in H.
    rewrite H.
    + destruct (negb (Produit.gestionStock p)); reflexivity.
    + right. unfold quantite_depot.
      destruct (trouver_depot depotId (Produit.stockParDepot p)) as [[i x] | ]; lra.
  - intros ->.
    destruct (produits db !! produitId) as [p | ]; [ | reflexivity].
    destruct (negb _); reflexivity.
Qed.

End Stock_suite.


Lemma gererSortieVente_partielle_witness :
  StockOperations.gererSortieVente validation_schemas oid_exemple
    bon_livraison_exemple "A" "U1" db_exemple
  = (fst (StockOperations.gererSortieVente validation_schemas oid_exemple
            {| StockOperations.bon_document := bon_exemple;
               StockOperations.bon_lignes :=
                 [ {| StockOperations.ligne_produit := "P";
                      StockOperations.ligne_quantite := 2 |} ] |}
            "A" "U1" db_exemple),
     Echec (StockInsuffisant "Produit P")).
Proof.
  refine (gererSortieVente_partielle validation_schemas oid_exemple bon_exemple
            [ {| StockOperations.ligne_produit := "P";
                 StockOperations.ligne_quantite := 2 |} ]
            []
            {| StockOperations.ligne_produit := "P";
               StockOperations.ligne_quantite := 20 |}
            "A" "U1" db_exemple _ (StockInsuffisant "Produit P") _ _).
  - vm_compute. reflexivity.
  - vm_compute. reflexivity.
Defined.

(* ===================================================================== *)
(** * More on the postings                                                *)
(* ===================================================================== *)

Section Comptabilite_suite.

Variable V : Validation.

Import ComptabiliteService ComptabilitePaiement.










End Comptabilite_suite.


(** X25.  The pre-save hook of an invoice never changes the statut of a
    cancelled invoice and never cancels one; on any other invoice the
    statut becomes 'Payée' exactly when the amount paid reaches the
    total with tax the hook has just computed, 'Partiellement payée'
    exactly when it is positive and below it; an invoice leaves the
    hook as a draft only if it entered it as one. *)
Theorem Facture_pre_save_statut (echue : bool) (this : FactureDocument.t) :
  let f := FactureDocument.pre_save echue this in
  let ttc := FactureDocument.totalTTC f in
  let paye := FactureDocument.montantPaye this in
  (FactureDocument.statut f = FactureDocument.Annulee
   <-> FactureDocument.statut this = FactureDocument.Annulee)
  /\ (FactureDocument.statut this <> FactureDocument.Annulee ->
      (FactureDocument.statut f = FactureDocument.Payee <-> ttc <= paye)
      /\ (FactureDocument.statut f = FactureDocument.PartiellementPayee
          <-> 0 < paye /\ paye < ttc)
      /\ (FactureDocument.statut f = FactureDocument.Brouillon ->
          FactureDocument.statut this = FactureDocument.Brouillon))
  /\ ttc == FactureDocument.totalHT f - FactureDocument.totalRemise f
            + FactureDocument.totalTVA f.
Proof.
  cbn zeta. unfold FactureDocument.pre_save.
  destruct (fold_left FactureDocument.cumuler (FactureDocument.lignes this) (0, 0, 0))
    as [[ht remise] tva].
  cbn [FactureDocument.totalHT FactureDocument.totalRemise FactureDocument.totalTVA
       FactureDocument.totalTTC FactureDocument.statut FactureDocument.montantPaye].
  set (p := FactureDocument.montantPaye this).
  set (ttc := ht - remise + tva).
  destruct (decide (FactureDocument.statut this = FactureDocument.Annulee)) as [Ha | Ha].
  - rewrite bool_decide_eq_false_2 by (intros H; apply H, Ha).
    split; [split; intros _; exact Ha | split; [intros H; congruence | reflexivity]].
  - rewrite (bool_decide_eq_true_2 _ Ha).
    destruct (Qle_bool ttc p) eqn:E1.
    { apply Qle_bool_iff in E1.
      split; [split; [discriminate | intros H; congruence] | ].
      split; [intros _ | reflexivity].
      split; [split; [intros _; exact E1 | reflexivity] | ].
      split; [split; [discriminate | intros [_ H]; lra] | discriminate]. }
    apply Qle_bool_false in E1.
    destruct (Qlt_bool 0 p) eqn:E2; cbn [andb].
    { apply Qlt_bool_true in E2. rewrite (proj2 (Qlt_bool_true p ttc) E1).
      split; [split; [discriminate | intros H; congruence] | ].
      split; [intros _ | reflexivity].
      split; [split; [discriminate | intros H; lra] | ].
      split; [split; [intros _; split; assumption | reflexivity] | discriminate]. }
    apply Qlt_bool_false in E2.
    destruct echue.
    { split; [split; [discriminate | intros H; congruence] | ].
      split; [intros _ | reflexivity].
      split; [split; [discriminate | intros H; lra] | ].
      split; [split; [discriminate | intros [H _]; lra] | discriminate]. }
    destruct (decide (FactureDocument.statut this = FactureDocument.Brouillon)) as [Hb | Hb].
    + rewrite (bool_decide_eq_true_2 _ Hb). rewrite Hb.
      split; [split; [discriminate | intros H; congruence] | ].
      split; [intros _ | reflexivity].
      split; [split; [discriminate | intros H; lra] | ].
      split; [split; [discriminate | intros [H _]; lra] | reflexivity].
    + rewrite (bool_decide_eq_false_2 _ Hb).
      split; [split; [discriminate | intros H; congruence] | ].
      split; [intros _ | reflexivity].
      split; [split; [discriminate | intros H; lra] | ].
      split; [split; [discriminate | intros [H _]; lra] | discriminate].
Qed.


(* ===================================================================== *)
(** * What [mettreAJourStock] does to a product                           *)
(* ===================================================================== *)

Section MettreAJourStock_suite.

Variable V : Validation.

Import Stock.

Lemma trouver_depot_alter (d : string) (q : Q) (l : list DepotStock.t) :
  forall i : nat,
    trouver_depot d (alter (ajouter q) i l)
    = match trouver_depot d l with
      | Some (j, x) => Some (j, if Nat.eqb j i then ajouter q x else x)
      | None => None
      end.
Proof.
  unfold trouver_depot.
  induction l as [ | y l IH]; intros i; [reflexivity | ].
  destruct i as [ | i].
  - cbn [alter list_alter list_find].
    change (DepotStock.depot (ajouter q y)) with (DepotStock.depot y).
    destruct (decide (DepotStock.depot y = d)); [reflexivity | ].
    destruct (list_find _ l) as [[j x] | ]; reflexivity.
  - change (alter (ajouter q) (S i) (y :: l)) with (y :: alter (ajouter q) i l).
    cbn [list_find].
    destruct (decide (DepotStock.depot y = d)); [reflexivity | ].
    rewrite IH. destruct (list_find _ l) as [[j x] | ]; reflexivity.
Qed.

Lemma trouver_depot_app (d : string) (y : DepotStock.t) (l : list DepotStock.t) :
  trouver_depot d (l ++ [y])
  = match trouver_depot d l with
    | Some r => Some r
    | None => if decide (DepotStock.depot y = d) then Some (length l, y) else None
    end.
Proof.
  unfold trouver_depot.
  induction l as [ | x l IH]; cbn [app list_find length].
  - destruct (decide (DepotStock.depot y = d)); reflexivity.
  - destruct (decide (DepotStock.depot x = d)); [reflexivity | ].
    rewrite IH. destruct (list_find _ l) as [[j z] | ]; [reflexivity | ].
    destruct (decide (DepotStock.depot y = d)); reflexivity.
Qed.

(** The quantities of a product after a successful update by
    [mettreAJourStock]. *)
Lemma mettreAJourStock_document_effet (p p' : Produit.t) (depotId : string) (q : Q) :
  mettreAJourStock_document p depotId q = Ok p' ->
  Produit._id p' = Produit._id p
  /\ Produit.quantiteEnStock p' = Produit.quantiteEnStock p + q
  /\ quantite_depot depotId p' == quantite_depot depotId p + q
  /\ (forall d, d <> depotId -> quantite_depot d p' = quantite_depot d p)
  /\ 0 <= Produit.quantiteEnStock p'
  /\ (is_Some (trouver_depot depotId (Produit.stockParDepot p)) ->
      0 <= quantite_depot depotId p').
Proof.
  unfold mettreAJourStock_document, quantite_depot.
  destruct (trouver_depot depotId (Produit.stockParDepot p)) as [[i x] | ] eqn:Ef.
  - pose proof (trouver_depot_lookup _ _ _ _ Ef) as [Hi Hx].
    rewrite (depot_negatif_alter q _ i x Hi).
    destruct (Qlt_bool (_ + q) 0) eqn:E1; [discriminate | ].
    destruct (Qlt_bool (DepotStock.quantite x + q) 0) eqn:E2; [discriminate | ].
    cbn [orb]. intros H. injection H as <-.
    apply Qlt_bool_false in E1, E2.
    cbn [Produit.avec_stock Produit._id Produit.quantiteEnStock Produit.stockParDepot].
    split; [reflexivity | split; [reflexivity | ]].
    rewrite trouver_depot_alter, Ef, Nat.eqb_refl. cbn [ajouter DepotStock.quantite].
    split; [reflexivity | split; [ | split; [exact E1 | intros _; exact E2]]].
    intros d Hd. rewrite trouver_depot_alter.
    destruct (trouver_depot d (Produit.stockParDepot p)) as [[j y] | ] eqn:Ed;
      [ | reflexivity].
    apply trouver_depot_lookup in Ed as [Hj Hy].
    destruct (Nat.eqb j i) eqn:Eji; [ | reflexivity].
    apply Nat.eqb_eq in Eji. subst j. congruence.
  - destruct (Qlt_bool (_ + q) 0) eqn:E1; [discriminate | ].
    cbn [orb]. intros H. injection H as <-.
    apply Qlt_bool_false in E1.
    cbn [Produit.avec_stock Produit._id Produit.quantiteEnStock Produit.stockParDepot].
    split; [reflexivity | split; [reflexivity | ]].
    rewrite trouver_depot_app, Ef. cbn [DepotStock.depot].
    rewrite decide_True by reflexivity. cbn [DepotStock.quantite].
    split; [ring | split; [ | split; [exact E1 | intros [r Hr]; discriminate]]].
    intros d Hd. rewrite trouver_depot_app.
    destruct (trouver_depot d (Produit.stockParDepot p)) as [[j y] | ]; [reflexivity | ].
    cbn [DepotStock.depot]. rewrite decide_False by congruence. reflexivity.
Qed.

Lemma mettreAJourStock_cases (produitId depotId : string) (q : Q) (db : Db) :
  match mettreAJourStock V produitId depotId q db with
  | (db', Ok p') =>
      exists p : Produit.t,
        produits db !! produitId = Some p
        /\ db' = set_produits db (<[Produit._id p := p']> (produits db))
        /\ Produit.quantiteEnStock p' = Produit.quantiteEnStock p + q
        /\ quantite_depot depotId p' == quantite_depot depotId p + q
        /\ (forall d, d <> depotId -> quantite_depot d p' = quantite_depot d p)
        /\ 0 <= Produit.quantiteEnStock p'
        /\ (is_Some (trouver_depot depotId (Produit.stockParDepot p)) ->
            0 <= quantite_depot depotId p')
  | (db', Echec e) => db' = db
  end.
Proof.
  unfold mettreAJourStock.
  destruct (produits db !! produitId) as [p | ] eqn:Ep; [ | reflexivity].
  destruct (mettreAJourStock_document p depotId q) as [p' | e] eqn:Ed; [ | reflexivity].
  apply mettreAJourStock_document_effet in Ed as (Hid & Hrest).
  unfold Produit_save. destruct (valide_produit V p'); [ | reflexivity].
  exists p. split; [reflexivity | ]. rewrite Hid. split; [reflexivity | exact Hrest].
Qed.

(** X26.  When [mettreAJourStock] succeeds, the product it returns is
    the stored one with the quantity added to its total and to its
    quantity in the warehouse given (a record being created there when
    it had none); the quantities in the other warehouses are untouched,
    the total is not negative, and neither is the quantity in the
    warehouse when it had a record.  When it throws - unknown product,
    negative result, failed validation - the database is as before. *)
Theorem mettreAJourStock_effet (produitId depotId : string) (q : Q) (db : Db) :
  match mettreAJourStock V produitId depotId q db with
  | (db', Ok p') =>
      exists p : Produit.t,
        produits db !! produitId = Some p
        /\ db' = set_produits db (<[Produit._id p := p']> (produits db))
        /\ Produit.quantiteEnStock p' = Produit.quantiteEnStock p + q
        /\ quantite_depot depotId p' == quantite_depot depotId p + q
        /\ (forall d, d <> depotId -> quantite_depot d p' = quantite_depot d p)
        /\ 0 <= Produit.quantiteEnStock p'
        /\ (is_Some (trouver_depot depotId (Produit.stockParDepot p)) ->
            0 <= quantite_depot depotId p')
  | (db', Echec e) => db' = db
  end.
Proof. apply mettreAJourStock_cases. Qed.

(** X27.  The save of a movement outside the service.  A new movement
    is given [valeurMouvement = quantite * coutUnitaire], its quantity
    is applied to the product through [mettreAJourStock], once, and it
    is appended to the journal; when the update of the product throws,
    nothing is written.  An existing movement saved again is replaced
    in the journal and no product is touched. *)
Theorem MouvementStock_save_effet (m : MouvementStock.t) (db : Db) :
  match MouvementStock_save V true m db with
  | (db', Ok m') =>
      m' = MouvementStock.avec_valeur m
             (MouvementStock.quantite m * MouvementStock.coutUnitaire m)
      /\ mouvementsStock db' = mouvementsStock db ++ [m']
      /\ exists p p' : Produit.t,
           produits db !! MouvementStock.produit m = Some p
           /\ produits db' = <[Produit._id p := p']> (produits db)
           /\ Produit.quantiteEnStock p'
              = Produit.quantiteEnStock p + MouvementStock.quantite m
           /\ quantite_depot (MouvementStock.depot m) p'
              == quantite_depot (MouvementStock.depot m) p + MouvementStock.quantite m
  | (db', Echec e) => db' = db
  end
  /\ match MouvementStock_save V false m db with
     | (db', Ok m') =>
         m' = m /\ produits db' = produits db
         /\ mouvementsStock db' = ecrire MouvementStock._id m (mouvementsStock db)
     | (db', Echec e) => db' = db
     end.
Proof.
  unfold MouvementStock_save, MouvementStock_pre_save. split.
  - destruct (valide_mouvement V m); [ | reflexivity].
    cbn [MouvementStock.avec_valeur MouvementStock.produit MouvementStock.depot
         MouvementStock.quantite].
    pose proof (mettreAJourStock_cases (MouvementStock.produit m)
                  (MouvementStock.depot m) (MouvementStock.quantite m) db) as H.
    destruct (mettreAJourStock V _ _ _ db) as [db1 [p' | e]]; [ | exact H].
    destruct H as (p & Hp & -> & Ht & Hd & _).
    split; [reflexivity | split; [reflexivity | ]].
    exists p, p'. cbn [produits set_mouvementsStock set_produits].
    split; [exact Hp | split; [reflexivity | split; [exact Ht | exact Hd]]].
  - destruct (valide_mouvement V m); [ | reflexivity].
    split; [reflexivity | split; reflexivity].
Qed.

End MettreAJourStock_suite.

(* ===================================================================== *)
(** * The price with tax of a product                                     *)
(* ===================================================================== *)

